(** * Solar-panel current logger: a shallow embedding of the two sketches

    The repository holds two Arduino sketches for an Arduino Uno with a
    DS1307 real-time clock, an SD card and an INA219 current sensor:

    - [SolarFinalVer2.ino], with optional averaging of the samples;
    - [solardatalog.ino], which checks the peripherals again in every
      iteration of [loop] and blinks the LED once per two seconds.

    Both are modelled as programs of a small state monad over a [World]
    that holds the peripherals, the global variables of the sketch and a
    trace of every observable action.  A spin loop ([while (1);]) is the
    outcome [Hang], which stops everything that follows it. *)

From Stdlib Require Import ZArith NArith QArith Qround Ascii String List Lia.
From stdpp Require Import base option list strings gmap pretty.

Open Scope Z_scope.

(** [lia] is to reason about division and remainder by constants. *)
Ltac Zify.zify_post_hook ::= Z.to_euclidean_division_equations.

(** ** Machine integers of the ATmega328P

    [int] is 16 bits wide, [unsigned long] is 32 bits wide and [char] is
    8 bits wide.  A signed overflow wraps around, as avr-gcc compiles it. *)

Definition wrap_int (z : Z) : Z := (z + 32768) mod 65536 - 32768.

Definition int_mul (a b : Z) : Z := wrap_int (a * b).
Definition int_add (a b : Z) : Z := wrap_int (a + b).
Definition int_div (a b : Z) : Z := Z.quot a b.

Definition to_ulong (z : Z) : Z := z mod 4294967296.

Definition to_char (n : N) : ascii := ascii_of_N (n mod 256).

(** ** Decimal printing, as [utoa] and [Print::printNumber] do it

    [do { *--p = '0' + n % 10; n /= 10; } while (n);]  The loop runs once
    per decimal digit, and [n] has at most [log2 n + 1] of them. *)

Definition digit_char (d : N) : ascii := to_char (48 + d).

Fixpoint utoa_loop (fuel : nat) (n : N) (acc : string) : string :=
  let acc' := String (digit_char (n mod 10)) acc in
  match fuel with
  | O => acc'
  | S k => if (n / 10 =? 0)%N then acc' else utoa_loop k (n / 10) acc'
  end.

Definition utoa (n : N) : string := utoa_loop (N.to_nat (N.log2 n)) n "".

(** ** The clock's date and time ([DateTime] of RTClib)

    [year] is a [uint16_t], the other fields are [uint8_t]. *)

Record DateTime : Type := mkDateTime {
  year : N; month : N; day : N;
  hour : N; minute : N; second : N
}.

(** ** The file name of the session

    [char filename[] = "YYYYMMDD.csv";] and the eight assignments of
    [setup] that overwrite its first eight characters. *)

Definition filename_template : list ascii :=
  list_ascii_of_string "YYYYMMDD.csv".

Definition generate_filename (f0 : list ascii) (start_time : DateTime)
  : list ascii :=
  let f1 := <[0%nat := to_char (48 + year start_time / 1000)]> f0 in
  let f2 := <[1%nat := to_char (48 + (year start_time / 100) mod 10)]> f1 in
  let f3 := <[2%nat := to_char (48 + (year start_time / 10) mod 10)]> f2 in
  let f4 := <[3%nat := to_char (48 + year start_time mod 10)]> f3 in
  let f5 := <[4%nat := to_char (48 + (month start_time / 10) mod 10)]> f4 in
  let f6 := <[5%nat := to_char (48 + month start_time mod 10)]> f5 in
  let f7 := <[6%nat := to_char (48 + (day start_time / 10) mod 10)]> f6 in
  <[7%nat := to_char (48 + day start_time mod 10)]> f7.

Arguments generate_filename : simpl never.

(** The name the spec asks for: the decimal numerals of year, month and
    day, padded with zeros to four, two and two characters. *)

Fixpoint zeros (k : nat) : string :=
  match k with O => "" | S k' => String "0" (zeros k') end.

Definition zero_pad (width : nat) (s : string) : string :=
  zeros (width - String.length s) +:+ s.

Definition yyyymmdd (d : DateTime) : string :=
  zero_pad 4 (pretty (year d)) +:+ zero_pad 2 (pretty (month d))
  +:+ zero_pad 2 (pretty (day d)).

Definition is_digit (c : ascii) : bool :=
  let n := N_of_ascii c in ((48 <=? n) && (n <=? 57))%N.


(** ** Floating point

    The sketch computes with [float] in three places: the running total of
    [ReadData], its division by [datapoints], and the printing of a value
    with two decimals ([Print::print(double)]).  The model is generic in
    that arithmetic. *)

Class FloatOps (F : Type) : Type := {
  f_zero : F;
  f_add : F → F → F;
  f_div : F → F → F;
  f_of_int : Z → F;
  f_print : F → string
}.

(** ** What the sketch does to the outside, in order *)

Inductive Event : Type :=
  | SerialOut (s : string)
  | LedWrite (level : bool)
  | Delay (ms : Z)
  | RtcAdjust (t : DateTime)
  | SdOpen (name : string)
  | SdWrite (name : string) (bytes : string)
  | SdClose (name : string).

(** ** The constants of a build

    [frequency], [averaged] and [datapoints] are the user parameters of
    the sketch; [build_time] is [DateTime(F(__DATE__), F(__TIME__))]. *)

Record Config : Type := mkConfig {
  frequency : Z;
  averaged : bool;
  datapoints : Z;
  build_time : DateTime
}.

(** ** The world: peripherals, global variables and the trace *)

Record World (F : Type) : Type := mkWorld {
  ina_ok : bool;
  ina_mA : F;
  rtc_ok : bool;
  rtc_running : bool;
  rtc_clock : DateTime;
  sd_ok : bool;
  sd_files : gmap string string;
  filename : list ascii;
  file : option string;
  averagedcurrent_mA : F;
  counter : Z;
  trace : list Event
}.

Arguments mkWorld {F}.
Arguments ina_ok {F}.
Arguments ina_mA {F}.
Arguments rtc_ok {F}.
Arguments rtc_running {F}.
Arguments rtc_clock {F}.
Arguments sd_ok {F}.
Arguments sd_files {F}.
Arguments filename {F}.
Arguments file {F}.
Arguments averagedcurrent_mA {F}.
Arguments counter {F}.
Arguments trace {F}.

(** What is plugged in when the board is powered, and what the SD card
    holds.  The globals start from their initialisers. *)

Record Boot (F : Type) : Type := mkBoot {
  boot_ina_ok : bool;
  boot_mA : F;
  boot_rtc_ok : bool;
  boot_rtc_running : bool;
  boot_clock : DateTime;
  boot_sd_ok : bool
}.

Arguments mkBoot {F}.
Arguments boot_ina_ok {F}.
Arguments boot_mA {F}.
Arguments boot_rtc_ok {F}.
Arguments boot_rtc_running {F}.
Arguments boot_clock {F}.
Arguments boot_sd_ok {F}.

Definition power_on {F} `{FloatOps F} (b : Boot F)
  (files : gmap string string) : World F :=
  {| ina_ok := boot_ina_ok b; ina_mA := boot_mA b;
     rtc_ok := boot_rtc_ok b; rtc_running := boot_rtc_running b;
     rtc_clock := boot_clock b;
     sd_ok := boot_sd_ok b; sd_files := files;
     filename := filename_template; file := None;
     averagedcurrent_mA := f_zero; counter := 0; trace := [] |}.

(** What the surroundings do between two iterations of [loop]: the clock
    advances, the sensor sees another current, a peripheral may come
    loose. *)

Record Tick (F : Type) : Type := mkTick {
  tick_ina_ok : bool;
  tick_mA : F;
  tick_clock : DateTime;
  tick_sd_ok : bool
}.

Arguments mkTick {F}.
Arguments tick_ina_ok {F}.
Arguments tick_mA {F}.
Arguments tick_clock {F}.
Arguments tick_sd_ok {F}.

(** ** The monad of the sketch

    A computation either returns or spins forever in [while (1);]. *)

Inductive outcome (A : Type) : Type :=
  | Ret (a : A)
  | Hang.

Arguments Ret {A}.
Arguments Hang {A}.

Definition M (F A : Type) : Type := World F → outcome A * World F.

Definition ret {F A} (a : A) : M F A := λ w, (Ret a, w).

Definition bind {F A B} (m : M F A) (k : A → M F B) : M F B :=
  λ w, match m w with
       | (Ret a, w') => k a w'
       | (Hang, w') => (Hang, w')
       end.

Definition hang {F A} : M F A := λ w, (Hang, w).

Declare Scope sketch_scope.
Delimit Scope sketch_scope with sketch.
Notation "x <- m ;; k" := (bind m (λ x, k))
  (at level 100, m at next level, right associativity) : sketch_scope.
Notation "m ;;; k" := (bind m (λ _, k))
  (at level 100, right associativity) : sketch_scope.
Open Scope sketch_scope.

Definition gets {F A} (f : World F → A) : M F A := λ w, (Ret (f w), w).
Definition modify {F} (f : World F → World F) : M F unit := λ w, (Ret tt, f w).

Definition log {F} (e : Event) (w : World F) : World F :=
  {| ina_ok := ina_ok w; ina_mA := ina_mA w; rtc_ok := rtc_ok w;
     rtc_running := rtc_running w; rtc_clock := rtc_clock w;
     sd_ok := sd_ok w; sd_files := sd_files w; filename := filename w;
     file := file w; averagedcurrent_mA := averagedcurrent_mA w;
     counter := counter w; trace := trace w ++ [e] |}.

Definition emit {F} (e : Event) : M F unit := modify (log e).

(** *** Serial, LED and delay *)

Definition crlf : string := String (to_char 13) (String (to_char 10) "").

Definition Serial_print {F} (s : string) : M F unit := emit (SerialOut s).
Definition Serial_println {F} (s : string) : M F unit :=
  emit (SerialOut (s +:+ crlf)).

Definition digitalWrite {F} (level : bool) : M F unit := emit (LedWrite level).

Definition delay {F} (ms : Z) : M F unit := emit (Delay (to_ulong ms)).

(** *** The real-time clock *)

Definition rtc_begin {F} : M F bool := gets rtc_ok.
Definition rtc_isrunning {F} : M F bool := gets rtc_running.
Definition rtc_now {F} : M F DateTime := gets rtc_clock.

Definition set_clock {F} (t : DateTime) (w : World F) : World F :=
  {| ina_ok := ina_ok w; ina_mA := ina_mA w; rtc_ok := rtc_ok w;
     rtc_running := true; rtc_clock := t;
     sd_ok := sd_ok w; sd_files := sd_files w; filename := filename w;
     file := file w; averagedcurrent_mA := averagedcurrent_mA w;
     counter := counter w; trace := trace w |}.

Definition rtc_adjust {F} (t : DateTime) : M F unit :=
  modify (set_clock t) ;;; emit (RtcAdjust t).

(** *** The sensor *)

Definition ina219_init {F} : M F bool := gets ina_ok.
Definition ina219_getCurrent_mA {F} : M F F := gets ina_mA.

(** *** The SD card and the [File] handle

    [SD.open(name, FILE_WRITE)] creates the file when it is missing and
    puts the position at its end; without a card the handle is invalid,
    and printing to an invalid handle writes nothing. *)

Definition SD_begin {F} : M F bool := gets sd_ok.

Definition set_file {F} (h : option string) (files : gmap string string)
  (w : World F) : World F :=
  {| ina_ok := ina_ok w; ina_mA := ina_mA w; rtc_ok := rtc_ok w;
     rtc_running := rtc_running w; rtc_clock := rtc_clock w;
     sd_ok := sd_ok w; sd_files := files; filename := filename w;
     file := h; averagedcurrent_mA := averagedcurrent_mA w;
     counter := counter w; trace := trace w |}.

Definition content (files : gmap string string) (name : string) : string :=
  default "" (files !! name).

Definition SD_open {F} (name : string) : M F unit :=
  ok <- gets sd_ok ;;
  if ok then
    files <- gets sd_files ;;
    modify (set_file (Some name) (<[name := content files name]> files)) ;;;
    emit (SdOpen name)
  else
    files <- gets sd_files ;;
    modify (set_file None files).

Definition file_size {F} : M F nat :=
  gets (λ w, match file w with
             | Some name => String.length (content (sd_files w) name)
             | None => 0%nat
             end).

Definition file_print {F} (s : string) : M F unit :=
  h <- gets file ;;
  match h with
  | Some name =>
      files <- gets sd_files ;;
      modify (set_file (Some name) (<[name := content files name +:+ s]> files)) ;;;
      emit (SdWrite name s)
  | None => ret tt
  end.

Definition file_newline {F} : M F unit := file_print crlf.

Definition file_println {F} (s : string) : M F unit :=
  file_print s ;;; file_newline.

Definition file_close {F} : M F unit :=
  h <- gets file ;;
  match h with
  | Some name =>
      files <- gets sd_files ;;
      modify (set_file None files) ;;; emit (SdClose name)
  | None => ret tt
  end.

(** *** The global variables *)

Definition set_filename {F} (f : list ascii) : M F unit :=
  modify (λ w,
  {| ina_ok := ina_ok w; ina_mA := ina_mA w; rtc_ok := rtc_ok w;
     rtc_running := rtc_running w; rtc_clock := rtc_clock w;
     sd_ok := sd_ok w; sd_files := sd_files w; filename := f;
     file := file w; averagedcurrent_mA := averagedcurrent_mA w;
     counter := counter w; trace := trace w |}).

Definition set_averagedcurrent_mA {F} (x : F) : M F unit :=
  modify (λ w,
  {| ina_ok := ina_ok w; ina_mA := ina_mA w; rtc_ok := rtc_ok w;
     rtc_running := rtc_running w; rtc_clock := rtc_clock w;
     sd_ok := sd_ok w; sd_files := sd_files w; filename := filename w;
     file := file w; averagedcurrent_mA := x;
     counter := counter w; trace := trace w |}).

Definition set_counter {F} (c : Z) : M F unit :=
  modify (λ w,
  {| ina_ok := ina_ok w; ina_mA := ina_mA w; rtc_ok := rtc_ok w;
     rtc_running := rtc_running w; rtc_clock := rtc_clock w;
     sd_ok := sd_ok w; sd_files := sd_files w; filename := filename w;
     file := file w; averagedcurrent_mA := averagedcurrent_mA w;
     counter := c; trace := trace w |}).

Definition sense {F} (t : Tick F) : M F unit :=
  modify (λ w,
  {| ina_ok := tick_ina_ok t; ina_mA := tick_mA t; rtc_ok := rtc_ok w;
     rtc_running := rtc_running w; rtc_clock := tick_clock t;
     sd_ok := tick_sd_ok t; sd_files := sd_files w; filename := filename w;
     file := file w; averagedcurrent_mA := averagedcurrent_mA w;
     counter := counter w; trace := trace w |}).

(** ** Code shared by the two sketches *)

Definition header : string := "Time, Current (mA)".

(** The eight assignments to [filename] and the block that opens the file
    and lists the headers, in [setup] of both sketches. *)

Definition name_the_file {F} : M F unit :=
  start_time <- rtc_now ;;
  f <- gets filename ;;
  set_filename (generate_filename f start_time).

Definition open_and_head {F} : M F unit :=
  f <- gets filename ;;
  SD_open (string_of_list_ascii f) ;;;
  size <- file_size ;;
  (if (size =? 0)%nat then file_println header else ret tt) ;;;
  file_close ;;;
  Serial_println "SD card OK!".

(** [StoreData], the same text in both sketches. *)

Definition timestamp (now : DateTime) : string :=
  let currtime := utoa (hour now) in
  let currtime := currtime +:+ ":" in
  let currtime := currtime +:+ utoa (minute now) in
  let currtime := currtime +:+ ":" in
  currtime +:+ utoa (second now).

Definition StoreData {F} `{FloatOps F} (currentvalue : F) : M F unit :=
  now <- rtc_now ;;
  let currtime := timestamp now in
  Serial_print "At " ;;; Serial_println currtime ;;;
  Serial_print "Current[mA]: " ;;; Serial_println (f_print currentvalue) ;;;
  file_print currtime ;;;
  file_print "," ;;;
  file_print (f_print currentvalue) ;;;
  file_print "," ;;;
  Serial_println "Data stored!" ;;;
  Serial_println "" ;;;
  file_newline.


(** ** The Arduino runtime: [setup] once, then [loop] forever

    One element of [ticks] stands for one iteration of [loop] and says
    what the surroundings are when it starts. *)

Fixpoint loops {F} (loop : M F unit) (ticks : list (Tick F)) : M F unit :=
  match ticks with
  | [] => ret tt
  | t :: rest => sense t ;;; loop ;;; loops loop rest
  end.

Definition sketch {F} (setup loop : M F unit) (ticks : list (Tick F))
  : M F unit :=
  setup ;;; loops loop ticks.

(** [for (int i = lo; i <= hi; i++) body], with one unit of fuel per
    iteration; [loop] of solardatalog gives it [hi] units for a loop from
    1 to [hi], which is enough (lemma [for_le_fuel_enough]). *)

Fixpoint for_le {F} (fuel : nat) (i hi : Z) (body : M F unit) : M F unit :=
  match fuel with
  | O => ret tt
  | S k => if i <=? hi then body ;;; for_le k (int_add i 1) hi body
           else ret tt
  end.

(** ** SolarFinalVer2.ino

    [pinMode], [Serial.begin] and [Wire.begin], the first three calls of
    [setup] in both sketches, leave nothing in the world of the model. *)

Module SolarFinalVer2.

Definition setup {F} `{FloatOps F} (cfg : Config) : M F unit :=
  ok <- rtc_begin ;;
  (if negb ok then
     Serial_println "Error : RTC not detected!" ;;;
     Serial_println "Attach the RTC, then push the reset button" ;;;
     hang
   else Serial_println "RTC detected!") ;;;
  running <- rtc_isrunning ;;
  (if negb running then
     Serial_println "Error : RTC lost power!" ;;;
     Serial_println "RTC will be set to when this sketch was compiled" ;;;
     rtc_adjust (build_time cfg)
   else Serial_println "RTC OK!") ;;;
  ok <- SD_begin ;;
  (if negb ok then
     Serial_println "Error : SD card not detected!" ;;;
     Serial_println "Attach the SD card, then push the reset button" ;;;
     hang
   else Serial_println "SD card detected!") ;;;
  name_the_file ;;;
  open_and_head ;;;
  ok <- ina219_init ;;
  (if negb ok then
     Serial_println "Error : INA219 not connected!" ;;;
     Serial_println "Connect the INA219, then push the reset button" ;;;
     hang
   else Serial_println "INA219 detected!") ;;;
  Serial_println "All checks OK!" ;;;
  Serial_print "Data will be stored into " ;;;
  f <- gets filename ;;
  Serial_println (string_of_list_ascii f) ;;;
  Serial_println "".

Definition ReadData {F} `{FloatOps F} (cfg : Config) : M F unit :=
  current_mA <- ina219_getCurrent_mA ;;
  if averaged cfg then
    total <- gets averagedcurrent_mA ;;
    set_averagedcurrent_mA (f_add total current_mA) ;;;
    c <- gets counter ;;
    set_counter (int_add c 1) ;;;
    c <- gets counter ;;
    if c =? datapoints cfg then
      total <- gets averagedcurrent_mA ;;
      let current_mA := f_div total (f_of_int (datapoints cfg)) in
      StoreData current_mA ;;;
      set_counter 0
    else ret tt
  else
    StoreData current_mA.

Definition loop {F} `{FloatOps F} (cfg : Config) : M F unit :=
  digitalWrite true ;;;
  f <- gets filename ;;
  SD_open (string_of_list_ascii f) ;;;
  ReadData cfg ;;;
  file_close ;;;
  delay (int_mul (frequency cfg) 500) ;;;
  digitalWrite false ;;;
  delay (int_mul (frequency cfg) 500).

Definition run {F} `{FloatOps F} (cfg : Config) (ticks : list (Tick F))
  : M F unit :=
  sketch (setup cfg) (loop cfg) ticks.

End SolarFinalVer2.

(** ** solardatalog.ino *)

Module solardatalog.

Definition setup {F} `{FloatOps F} (cfg : Config) : M F unit :=
  ok <- ina219_init ;;
  (if negb ok then
     Serial_println "Error : INA219 not connected!" ;;;
     Serial_println "Connect the INA219, then push the reset button" ;;;
     digitalWrite true ;;;
     hang
   else Serial_println "INA219 detected!") ;;;
  ok <- rtc_begin ;;
  (if negb ok then
     Serial_println "Error : RTC not detected!" ;;;
     Serial_println "Attach the RTC, then push the reset button" ;;;
     digitalWrite true ;;;
     hang
   else Serial_println "RTC detected!") ;;;
  running <- rtc_isrunning ;;
  (if negb running then
     Serial_println "Error : RTC lost power!" ;;;
     Serial_println "RTC will be set to when this sketch was compiled" ;;;
     rtc_adjust (build_time cfg) ;;;
     digitalWrite true ;;;
     hang
   else Serial_println "RTC OK!") ;;;
  ok <- SD_begin ;;
  (if negb ok then
     Serial_println "Error : SD card not detected!" ;;;
     Serial_println "Attach the SD card, then push the reset button" ;;;
     digitalWrite true ;;;
     hang
   else Serial_println "SD card detected!") ;;;
  name_the_file ;;;
  open_and_head ;;;
  Serial_println "All checks OK!" ;;;
  Serial_print "Data will be stored into " ;;;
  f <- gets filename ;;
  Serial_println (string_of_list_ascii f) ;;;
  Serial_println "".

Definition ReadData {F} `{FloatOps F} : M F unit :=
  current_mA <- ina219_getCurrent_mA ;;
  StoreData current_mA.

Definition blink {F} (cfg : Config) : M F unit :=
  digitalWrite true ;;;
  delay (int_mul (int_div (frequency cfg) (frequency cfg)) 1000) ;;;
  digitalWrite false ;;;
  delay (int_mul (int_div (frequency cfg) (frequency cfg)) 1000).

Definition loop {F} `{FloatOps F} (cfg : Config) : M F unit :=
  ok <- ina219_init ;;
  (if negb ok then
     Serial_println
       "Error : INA219 not connected! Connect the INA219, then push the reset button" ;;;
     digitalWrite true ;;;
     hang
   else ret tt) ;;;
  ok <- SD_begin ;;
  (if negb ok then
     Serial_println
       "Error : SD card not detected! Attach the SD card, then push the reset button" ;;;
     digitalWrite true ;;;
     hang
   else ret tt) ;;;
  f <- gets filename ;;
  SD_open (string_of_list_ascii f) ;;;
  ReadData ;;;
  file_close ;;;
  let hi := int_div (frequency cfg) 2 in
  for_le (Z.to_nat hi) 1 hi (blink cfg).

Definition run {F} `{FloatOps F} (cfg : Config) (ticks : list (Tick F))
  : M F unit :=
  sketch (setup cfg) (loop cfg) ticks.

End solardatalog.

(** ** Exact arithmetic as an instance of the floating point

    Rational numbers stand for the values of [float] in the examples
    only: every general theorem is about an arbitrary [FloatOps].  The
    instance is exact where the 32-bit [float] rounds, so it has neither
    nan nor inf, keeps [2^24 + 1] apart from [2^24], and prints 1/8 as
    0.13 where the board prints 0.12; on the small integers of the
    examples below binary floating point computes and prints the same.
    [Q_printFloat] follows [Print::printFloat(number, 2)] of the Arduino
    core: sign, rounding by half a unit of the last digit, integer part,
    point, digits. *)

Definition Qltb (a b : Q) : bool := negb (Qle_bool b a).

Fixpoint Q_fraction (digits : nat) (remainder : Q) : string :=
  match digits with
  | O => ""
  | S k =>
      let remainder := Qred (remainder * 10) in
      let toPrint := Qfloor remainder in
      utoa (Z.to_N toPrint) +:+ Q_fraction k (Qred (remainder - inject_Z toPrint))
  end.

Fixpoint Q_rounding (digits : nat) (rounding : Q) : Q :=
  match digits with
  | O => rounding
  | S k => Q_rounding k (Qred (rounding / 10))
  end.

Definition Q_printFloat (number : Q) (digits : nat) : string :=
  if Qltb 4294967040 number then "ovf"
  else if Qltb number (-4294967040) then "ovf"
  else
    let sign := if Qltb number 0 then "-" else "" in
    let number := if Qltb number 0 then Qred (- number) else number in
    let number := Qred (number + Q_rounding digits (1 # 2)) in
    let int_part := Qfloor number in
    let remainder := Qred (number - inject_Z int_part) in
    sign +:+ utoa (Z.to_N int_part)
    +:+ (if (0 <? digits)%nat then "." else "")
    +:+ Q_fraction digits remainder.

#[export] Instance Q_FloatOps : FloatOps Q := {|
  f_zero := 0%Q;
  f_add := λ a b, Qred (a + b);
  f_div := λ a b, Qred (a / b);
  f_of_int := inject_Z;
  f_print := λ x, Q_printFloat x 2
|}.

(** ** Reading a trace *)

(** The milliseconds of all the delays of a trace. *)

Fixpoint delays (tr : list Event) : Z :=
  match tr with
  | [] => 0
  | Delay ms :: rest => ms + delays rest
  | _ :: rest => delays rest
  end.

(** The clock adjustments of a trace. *)

Fixpoint adjustments (tr : list Event) : list DateTime :=
  match tr with
  | [] => []
  | RtcAdjust t :: rest => t :: adjustments rest
  | _ :: rest => adjustments rest
  end.

(** How many times [StoreData] ran: it says so on the serial line. *)

Definition is_data_stored (e : Event) : bool :=
  match e with
  | SerialOut s => if decide (s = "Data stored!" +:+ crlf) then true else false
  | _ => false
  end.

Definition rows_stored (tr : list Event) : nat :=
  length (filter (λ e, is_data_stored e = true) tr).

(** The discipline of the file handle: a file is opened only while none
    is open, written and closed only while it is the open one, and no
    delay passes while a file is open.  [scoped h tr] is the handle after
    [tr], started with handle [h], or [None] when [tr] breaks the
    discipline. *)

Fixpoint scoped (h : option string) (tr : list Event)
  : option (option string) :=
  match tr with
  | [] => Some h
  | e :: rest =>
      match e, h with
      | SdOpen name, None => scoped (Some name) rest
      | SdOpen _, Some _ => None
      | SdWrite name _, Some name' =>
          if decide (name = name') then scoped h rest else None
      | SdWrite _ _, None => None
      | SdClose name, Some name' =>
          if decide (name = name') then scoped None rest else None
      | SdClose _, None => None
      | Delay _, Some _ => None
      | _, _ => scoped h rest
      end
  end.

(** The card's part of a trace: its opens, writes and closes in order,
    the byte strings of its writes, and those bytes in one piece. *)

Fixpoint file_events (tr : list Event) : list Event :=
  match tr with
  | [] => []
  | SdOpen name :: rest => SdOpen name :: file_events rest
  | SdWrite name bytes :: rest => SdWrite name bytes :: file_events rest
  | SdClose name :: rest => SdClose name :: file_events rest
  | _ :: rest => file_events rest
  end.

Fixpoint bytes_written (tr : list Event) : list string :=
  match tr with
  | [] => []
  | SdWrite _ bytes :: rest => bytes :: bytes_written rest
  | _ :: rest => bytes_written rest
  end.

Fixpoint join (pieces : list string) : string :=
  match pieces with
  | [] => ""
  | piece :: rest => piece +:+ join rest
  end.

(** The lines on the serial line that report an error. *)

Fixpoint errors (tr : list Event) : list string :=
  match tr with
  | [] => []
  | SerialOut s :: rest =>
      if String.prefix "Error" s then s :: errors rest else errors rest
  | _ :: rest => errors rest
  end.

(** The events that a computation adds to the trace of [w]. *)

Definition events_of {F A} (m : M F A) (w : World F) : list Event :=
  drop (length (trace w)) (trace (snd (m w))).

Definition add_events {F} (evs : list Event) (w : World F) : World F :=
  {| ina_ok := ina_ok w; ina_mA := ina_mA w; rtc_ok := rtc_ok w;
     rtc_running := rtc_running w; rtc_clock := rtc_clock w;
     sd_ok := sd_ok w; sd_files := sd_files w; filename := filename w;
     file := file w; averagedcurrent_mA := averagedcurrent_mA w;
     counter := counter w; trace := trace w ++ evs |}.

(** The events of [k] rounds of the blinking loop of solardatalog, each
    delay being [d] milliseconds long. *)

Fixpoint blinks (k : nat) (d : Z) : list Event :=
  match k with
  | O => []
  | S k' => [LedWrite true; Delay d; LedWrite false; Delay d] ++ blinks k' d
  end.

(** The handle is closed and the trace up to now kept the discipline. *)

Definition closed {F} (w : World F) : Prop :=
  file w = None ∧ scoped None (trace w) = Some None.

(** [fs'] is [fs] with [bytes] appended to the file [fname]. *)

Definition appended (fs fs' : gmap string string) (fname bytes : string)
  : Prop :=
  ∀ name, content fs' name
          = if decide (name = fname) then content fs fname +:+ bytes
            else content fs name.

(** The bytes of one data row, as the spec words them: the time without
    padding, a comma, the value, a comma and the line terminator. *)

Definition row_bytes {F} `{FloatOps F} (now : DateTime) (value : F) : string :=
  pretty (hour now) +:+ ":" +:+ pretty (minute now) +:+ ":"
  +:+ pretty (second now) +:+ "," +:+ f_print value +:+ "," +:+ crlf.

Fixpoint rows_bytes {F} `{FloatOps F} (rows : list (DateTime * F)) : string :=
  match rows with
  | [] => ""
  | (now, value) :: rest => row_bytes now value +:+ rows_bytes rest
  end.

Definition header_line : string := header +:+ crlf.

(** What a file may become over any number of power cycles: it stays as
    it is, or it is its old content, with the header line in place of an
    empty content, followed by data rows only. *)

Definition head_of (c0 : string) : string :=
  if decide (c0 = "") then header_line else c0.

Definition grown {F} `{FloatOps F} (c0 c : string) : Prop :=
  c = c0 ∨ ∃ rows : list (DateTime * F), c = head_of c0 +:+ rows_bytes rows.

(** One iteration appends at most one data row to the dated file. *)

Definition row_or_nothing {F} `{FloatOps F} (w w' : World F) : Prop :=
  filename w' = filename w ∧ file w' = None
  ∧ ∃ rows : list (DateTime * F),
      appended (sd_files w) (sd_files w')
        (string_of_list_ascii (filename w)) (rows_bytes rows).

(** The rows that [ReadData] of SolarFinalVer2 stores in averaging mode,
    read off its text: the running [total] takes every sample and is
    never set back, [c] counts up to [N] and is. *)

Fixpoint averaged_rows {F} `{FloatOps F} (N : Z) (total : F) (c : Z)
  (ticks : list (Tick F)) : list (DateTime * F) :=
  match ticks with
  | [] => []
  | t :: rest =>
      let total' := f_add total (tick_mA t) in
      if int_add c 1 =? N
      then (tick_clock t, f_div total' (f_of_int N))
           :: averaged_rows N total' 0 rest
      else averaged_rows N total' (int_add c 1) rest
  end.

(** Power cycles in a row: each starts from the files the previous one
    left on the card. *)

Definition Session (F : Type) : Type := (Boot F * list (Tick F))%type.

Definition run_sessions {F} `{FloatOps F}
  (run : list (Tick F) → M F unit) (sessions : list (Session F))
  (files : gmap string string) : gmap string string :=
  foldl (λ fs s, sd_files (snd (run (snd s) (power_on (fst s) fs))))
        files sessions.

(** ** A bench set-up for the examples

    A board compiled on 9 May 2024 at noon, started at 09:05:00 on the same
    day with everything plugged in and an empty card. *)

Definition bench_build : DateTime := mkDateTime 2024 5 9 12 0 0.

Definition bench_boot : Boot Q :=
  mkBoot true 0%Q true true (mkDateTime 2024 5 9 9 5 0) true.

Definition bench_tick (s : N) (mA : Q) : Tick Q :=
  mkTick true mA (mkDateTime 2024 5 9 9 5 s) true.

Definition bench_config (frequency : Z) (averaged : bool) (datapoints : Z)
  : Config :=
  mkConfig frequency averaged datapoints bench_build.

(** The bench after [setup] of either sketch, and in the middle of an
    iteration, with the dated file open at 09:05:03. *)

Definition bench_V2 (cfg : Config) : World Q :=
  snd (SolarFinalVer2.setup cfg (power_on bench_boot ∅)).

Definition bench_datalog (cfg : Config) : World Q :=
  snd (solardatalog.setup cfg (power_on bench_boot ∅)).

Definition bench_open : World Q :=
  snd ((sense (bench_tick 3 2%Q) ;;; SD_open "20240509.csv")
         (bench_V2 (bench_config 5 false 10))).

(** The arithmetic mean of some samples, and four samples of 1, 3, 1 and
    3 mA taken at 09:05:01 to 09:05:04. *)

Definition mean (samples : list Q) : Q :=
  Qred (fold_right Qplus 0%Q samples / inject_Z (Z.of_nat (length samples))).

Definition four_samples : list (Tick Q) :=
  [bench_tick 1 1%Q; bench_tick 2 3%Q; bench_tick 3 1%Q; bench_tick 4 3%Q].

(** ** More readings of a run *)

(** The level last written to the LED pin, if any was. *)

Fixpoint led_writes (tr : list Event) : list bool :=
  match tr with
  | [] => []
  | LedWrite level :: rest => level :: led_writes rest
  | _ :: rest => led_writes rest
  end.

Definition led (tr : list Event) : option bool := last (led_writes tr).

(** The rows of some iterations that store every sample as it is. *)

Definition raw_rows {F} (ticks : list (Tick F)) : list (DateTime * F) :=
  map (λ t, (tick_clock t, tick_mA t)) ticks.

(** Sensor and card are both in place when the iteration starts. *)

Definition tick_ok {F} (t : Tick F) : bool := tick_ina_ok t && tick_sd_ok t.

(** The running total after some samples. *)

Definition total_of {F} `{FloatOps F} (total : F) (ticks : list (Tick F)) : F :=
  foldl f_add total (map tick_mA ticks).

(** A string of decimal digits only. *)

Definition all_digits (s : string) : Prop :=
  forallb is_digit (list_ascii_of_string s) = true.

(** An iteration of the bench in which the sensor has come loose, and one
    in which the card has. *)

Definition bench_no_sensor : Tick Q :=
  mkTick false 0%Q (mkDateTime 2024 5 9 9 5 30) true.

Definition bench_no_card : Tick Q :=
  mkTick true 7%Q (mkDateTime 2024 5 9 9 5 30) false.

(** ** Decimal printing agrees with the library's numerals *)

Lemma digit_char_pretty (d : N) : (d < 10)%N → digit_char d = pretty_N_char d.
Proof.
  intros Hd.
  assert (Hcase : (d = 0 ∨ d = 1 ∨ d = 2 ∨ d = 3 ∨ d = 4 ∨ d = 5 ∨ d = 6
                   ∨ d = 7 ∨ d = 8 ∨ d = 9)%N) by lia.
  repeat (destruct Hcase as [->|Hcase]; [reflexivity|]).
  subst d. reflexivity.
Qed.

Lemma utoa_loop_pretty (fuel : nat) : ∀ (n : N) (acc : string),
  (0 < n)%N → (N.log2 n ≤ N.of_nat fuel)%N →
  utoa_loop fuel n acc = pretty_N_go n acc.
Proof.
  induction fuel as [|k IH]; intros n acc Hn Hlog; cbn [utoa_loop].
  - assert (n = 1)%N as ->.
    { destruct (N.eq_dec n 1%N) as [|Hne]; [done|].
      assert (N.log2 2 ≤ N.log2 n)%N as Hle by (apply N.log2_le_mono; lia).
      change (N.log2 2) with 1%N in Hle. lia. }
    reflexivity.
  - rewrite pretty_N_go_step by done.
    rewrite digit_char_pretty by (apply N.mod_lt; lia).
    destruct (N.eqb_spec (n / 10) 0) as [Hz|Hnz].
    + rewrite Hz, pretty_N_go_0. reflexivity.
    + apply IH; [apply N.neq_0_lt_0; exact Hnz|].
      assert (N.log2 (n / 10) < N.log2 n)%N; [|lia].
      apply N.le_lt_trans with (N.log2 (N.div2 n)).
      * apply N.log2_le_mono. rewrite N.div2_div.
        apply N.div_le_compat_l. lia.
      * rewrite N.div2_spec, N.log2_shiftr.
        assert (0 < N.log2 n)%N; [|lia].
        apply N.log2_pos.
        destruct (N.lt_ge_cases n 10) as [Hsmall|Hbig]; [|lia].
        by rewrite N.div_small in Hnz.
Qed.

Lemma utoa_pretty (n : N) : utoa n = pretty n.
Proof.
  unfold utoa, pretty, pretty_N.
  destruct (decide (n = 0%N)) as [->|Hn]; [reflexivity|].
  apply utoa_loop_pretty; lia.
Qed.

(** ** The numerals of a date *)

Lemma pretty_four_digits (y : N) : (1000 ≤ y ≤ 9999)%N →
  pretty y = String (digit_char (y / 1000))
            (String (digit_char ((y / 100) mod 10))
            (String (digit_char ((y / 10) mod 10))
            (String (digit_char (y mod 10)) ""))).
Proof.
  intros Hy. unfold pretty, pretty_N.
  destruct (decide (y = 0%N)) as [|_]; [lia|].
  do 4 (rewrite pretty_N_go_step by lia).
  replace (y / 10 / 10 / 10 / 10)%N with 0%N by lia.
  rewrite pretty_N_go_0.
  rewrite <- !digit_char_pretty by lia.
  replace ((y / 10 / 10 / 10) mod 10)%N with (y / 1000)%N by lia.
  replace (y / 10 / 10)%N with (y / 100)%N by lia.
  reflexivity.
Qed.

Lemma pretty_two_digits (n : N) : (n ≤ 99)%N →
  zero_pad 2 (pretty n)
  = String (digit_char ((n / 10) mod 10)) (String (digit_char (n mod 10)) "").
Proof.
  intros Hn. unfold pretty, pretty_N.
  destruct (decide (n = 0%N)) as [->|Hn0]; [reflexivity|].
  rewrite pretty_N_go_step by lia.
  destruct (decide (n < 10)%N) as [Hsmall|Hbig].
  - replace (n / 10)%N with 0%N by lia.
    rewrite pretty_N_go_0, <- digit_char_pretty by lia. reflexivity.
  - rewrite pretty_N_go_step by lia.
    replace (n / 10 / 10)%N with 0%N by lia.
    rewrite pretty_N_go_0, <- !digit_char_pretty by lia.
    reflexivity.
Qed.

Lemma digit_char_is_digit (d : N) : (d < 10)%N → is_digit (digit_char d) = true.
Proof.
  intros Hd. unfold is_digit, digit_char, to_char.
  rewrite N_ascii_embedding by lia.
  rewrite N.mod_small by lia.
  apply andb_true_intro. split; apply N.leb_le; lia.
Qed.

Lemma generate_filename_padded (d : DateTime) :
  (1000 ≤ year d ≤ 9999)%N → (1 ≤ month d ≤ 12)%N → (1 ≤ day d ≤ 31)%N →
  string_of_list_ascii (generate_filename filename_template d)
  = yyyymmdd d +:+ ".csv"
  ∧ String.length (yyyymmdd d) = 8%nat
  ∧ forallb is_digit (list_ascii_of_string (yyyymmdd d)) = true.
Proof.
  intros Hy Hm Hd. unfold yyyymmdd.
  rewrite (pretty_four_digits (year d)) by done.
  rewrite !pretty_two_digits by lia.
  split; [reflexivity|]. split; [reflexivity|].
  cbv -[is_digit digit_char N.div N.modulo year month day].
  rewrite !digit_char_is_digit by lia. reflexivity.
Qed.

(** ** Strings *)

Lemma append_assoc (a b c : string) : (a +:+ b) +:+ c = a +:+ (b +:+ c).
Proof.
  induction a as [|x a IH]; [reflexivity|].
  change (String x ((a +:+ b) +:+ c) = String x (a +:+ (b +:+ c))).
  by rewrite IH.
Qed.

Lemma append_nil_r (a : string) : a +:+ "" = a.
Proof.
  induction a as [|x a IH]; [reflexivity|].
  change (String x (a +:+ "") = String x a). by rewrite IH.
Qed.

Lemma append_nil_l (a : string) : "" +:+ a = a.
Proof. reflexivity. Qed.

Lemma length_append (a b : string) :
  String.length (a +:+ b) = (String.length a + String.length b)%nat.
Proof.
  induction a as [|x a IH]; [reflexivity|].
  change (S (String.length (a +:+ b)) = S (String.length a + String.length b)).
  by rewrite IH.
Qed.

Lemma length_zero_empty (a : string) : String.length a = 0%nat ↔ a = "".
Proof. destruct a; split; intros Heq; try done. Qed.

Lemma timestamp_pretty (now : DateTime) :
  timestamp now = pretty (hour now) +:+ ":" +:+ pretty (minute now) +:+ ":"
                  +:+ pretty (second now).
Proof. unfold timestamp. by rewrite !utoa_pretty, !append_assoc. Qed.

(** ** Files *)

Lemma content_insert_eq (fs : gmap string string) (name c : string) :
  content (<[name := c]> fs) name = c.
Proof. unfold content. by rewrite lookup_insert_eq. Qed.

Lemma content_insert_ne (fs : gmap string string) (name other c : string) :
  name ≠ other → content (<[name := c]> fs) other = content fs other.
Proof. intros Hne. unfold content. by rewrite lookup_insert_ne. Qed.

(** ** One data row *)

Section StoreData.
Context {F : Type} `{FloatOps F}.

Lemma StoreData_spec (w : World F) (v : F) (name : string) :
  file w = Some name →
  fst (StoreData v w) = Ret tt
  ∧ sd_files (snd (StoreData v w))
    = <[name := content (sd_files w) name +:+ row_bytes (rtc_clock w) v]>
        (sd_files w)
  ∧ file (snd (StoreData v w)) = Some name
  ∧ counter (snd (StoreData v w)) = counter w
  ∧ averagedcurrent_mA (snd (StoreData v w)) = averagedcurrent_mA w
  ∧ filename (snd (StoreData v w)) = filename w.
Proof.
  intros Hfile. destruct w; cbn in Hfile; subst.
  unfold StoreData, file_newline, file_print.
  cbn -[content insert].
  repeat split.
  rewrite !content_insert_eq, !insert_insert_eq.
  f_equal. unfold row_bytes.
  rewrite timestamp_pretty, !append_assoc. reflexivity.
Qed.

End StoreData.

(** ** Traces *)

Lemma delays_app (a b : list Event) : delays (a ++ b) = delays a + delays b.
Proof.
  induction a as [|e a IH]; [reflexivity|].
  destruct e; cbn; rewrite ?IH; lia.
Qed.

Lemma adjustments_app (a b : list Event) :
  adjustments (a ++ b) = adjustments a ++ adjustments b.
Proof.
  induction a as [|e a IH]; [reflexivity|].
  destruct e; cbn; rewrite ?IH; reflexivity.
Qed.

Lemma scoped_app (h : option string) (a b : list Event) :
  scoped h (a ++ b) = scoped h a ≫= λ h', scoped h' b.
Proof.
  revert h. induction a as [|e a IH]; intros h; [reflexivity|].
  destruct e, h; cbn; try apply IH; try reflexivity;
    case_decide; try apply IH; reflexivity.
Qed.

Lemma rows_stored_app (a b : list Event) :
  rows_stored (a ++ b) = (rows_stored a + rows_stored b)%nat.
Proof. unfold rows_stored. by rewrite filter_app, length_app. Qed.

(** What a trace that keeps the discipline says about each delay: no file
    is open when it starts. *)

Lemma scoped_delay_closed (h : option string) (a b : list Event) (ms : Z) :
  is_Some (scoped h (a ++ Delay ms :: b)) → scoped h a = Some None.
Proof.
  rewrite scoped_app. destruct (scoped h a) as [[name|]|]; cbn.
  - by intros [? ?].
  - done.
  - by intros [? ?].
Qed.

Lemma scoped_write_open (h : option string) (a b : list Event)
  (name bytes : string) :
  is_Some (scoped h (a ++ SdWrite name bytes :: b)) →
  scoped h a = Some (Some name).
Proof.
  rewrite scoped_app. destruct (scoped h a) as [[name'|]|]; cbn.
  - case_decide; [by subst|]. by intros [? ?].
  - by intros [? ?].
  - by intros [? ?].
Qed.

(** ** Running the sketches symbolically *)

Ltac step :=
  cbv beta iota zeta delta
    [bind ret gets modify emit hang log set_file set_clock add_events
     Serial_print Serial_println digitalWrite delay
     rtc_begin rtc_isrunning rtc_now rtc_adjust
     ina219_init ina219_getCurrent_mA
     SD_begin SD_open file_size file_print file_newline file_println file_close
     set_filename set_averagedcurrent_mA set_counter sense
     name_the_file open_and_head StoreData events_of power_on
     boot_ina_ok boot_mA boot_rtc_ok boot_rtc_running boot_clock boot_sd_ok
     tick_ina_ok tick_mA tick_clock tick_sd_ok
     ina_ok ina_mA rtc_ok rtc_running rtc_clock sd_ok sd_files filename file
     averagedcurrent_mA counter trace fst snd negb].

Ltac open_records :=
  repeat match goal with
  | w : World _ |- _ => destruct w
  | b : Boot _ |- _ => destruct b
  | t : Tick _ |- _ => destruct t
  end;
  cbn [boot_ina_ok boot_mA boot_rtc_ok boot_rtc_running boot_clock boot_sd_ok
       tick_ina_ok tick_mA tick_clock tick_sd_ok
       ina_ok ina_mA rtc_ok rtc_running rtc_clock sd_ok sd_files filename file
       averagedcurrent_mA counter trace] in *;
  subst.

Ltac branch :=
  repeat match goal with
  | Habsurd : true = false |- _ => discriminate Habsurd
  | Habsurd : false = true |- _ => discriminate Habsurd
  | |- context [if ?b then _ else _] => is_var b; destruct b eqn:?; step
  | |- context [if ?b then _ else _] =>
      lazymatch type of b with bool => destruct b eqn:?; step end
  end.

Ltac exec := open_records; step; branch.

Ltac since_start := rewrite <- ?app_assoc, ?drop_app_length; cbn [app].

(** ** The file name of a session *)

Section Startup.
Context {F : Type} `{FloatOps F}.

(** C4. For every clock date at startup with a year from 1000 to 9999, a
    month from 1 to 12 and a day from 1 to 31, the file name that [setup]
    derives is the zero-padded YYYYMMDD numeral of that date, eight ASCII
    digits long, followed by the extension [.csv]. *)
Theorem C4_filename_is_padded_date (w : World F) :
  filename w = filename_template →
  (1000 ≤ year (rtc_clock w) ≤ 9999)%N →
  (1 ≤ month (rtc_clock w) ≤ 12)%N →
  (1 ≤ day (rtc_clock w) ≤ 31)%N →
  let name := string_of_list_ascii (filename (snd (name_the_file w))) in
  let digits := yyyymmdd (rtc_clock w) in
  name = digits +:+ ".csv"
  ∧ String.length digits = 8%nat
  ∧ forallb is_digit (list_ascii_of_string digits) = true.
Proof.
  intros Htemplate Hy Hm Hd.
  pose proof (generate_filename_padded (rtc_clock w) Hy Hm Hd) as Hname.
  destruct w; cbn in *; subst. exact Hname.
Qed.

(** *** The header block of [setup] *)

Lemma open_and_head_files (w : World F) :
  sd_ok w = true → file w = None →
  let name := string_of_list_ascii (filename w) in
  let before := content (sd_files w) name in
  sd_files (snd (open_and_head w))
  = <[name := if decide (before = "") then header_line else before]>
      (sd_files w).
Proof.
  intros Hsd Hfile. exec.
  - apply Nat.eqb_eq in Heqb. rewrite content_insert_eq in Heqb.
    apply length_zero_empty in Heqb. rewrite Heqb.
    rewrite !content_insert_eq, !insert_insert_eq.
    rewrite decide_True by done. reflexivity.
  - apply Nat.eqb_neq in Heqb. rewrite content_insert_eq in Heqb.
    rewrite decide_False; [reflexivity|].
    intros Hempty. by rewrite Hempty in Heqb.
Qed.

End Startup.

Lemma C4_filename_witness :
  string_of_list_ascii (filename (snd (name_the_file (power_on bench_boot ∅))))
  = "20240509.csv".
Proof.
  pose proof (C4_filename_is_padded_date (power_on bench_boot ∅) eq_refl) as Hname.
  destruct Hname as [Hname _]; [cbn; lia ..|].
  rewrite Hname. vm_compute. reflexivity.
Defined.

(** ** The loop of the Arduino runtime *)

Section Runtime.
Context {F : Type} `{FloatOps F}.

Lemma loops_invariant (I : World F → Prop) (loop : M F unit) :
  (∀ t w, I w → I (snd (loop (snd (sense t w))))) →
  ∀ ticks w, I w → I (snd (loops loop ticks w)).
Proof.
  intros Hstep ticks. induction ticks as [|t rest IH]; intros w Hw; [done|].
  cbn [loops]. unfold bind at 1. cbn [sense modify].
  specialize (Hstep t w Hw). cbn [sense modify snd] in Hstep.
  unfold bind at 1.
  destruct (loop _) as [[[]|] w2]; cbn [snd] in *; auto.
Qed.

Lemma sketch_invariant (I : World F → Prop) (setup loop : M F unit)
  (ticks : list (Tick F)) (w : World F) :
  I (snd (setup w)) →
  (∀ t w, I w → I (snd (loop (snd (sense t w))))) →
  I (snd (sketch setup loop ticks w)).
Proof.
  intros Hsetup Hstep. unfold sketch, bind.
  destruct (setup w) as [[[]|] w1]; cbn [snd] in *; [|done].
  by apply loops_invariant.
Qed.

Lemma sketch_hang (setup loop : M F unit) (ticks : list (Tick F))
  (w : World F) :
  fst (setup w) = Hang → sketch setup loop ticks w = (Hang, snd (setup w)).
Proof.
  intros Hhang. unfold sketch, bind.
  destruct (setup w) as [[[]|] w1]; cbn in *; by try discriminate.
Qed.

Lemma sketch_ret (setup loop : M F unit) (ticks : list (Tick F))
  (w : World F) :
  fst (setup w) = Ret tt →
  sketch setup loop ticks w = loops loop ticks (snd (setup w)).
Proof.
  intros Hret. unfold sketch, bind.
  destruct (setup w) as [[[]|] w1]; cbn in *; by try discriminate.
Qed.

Lemma loops_return (loop : M F unit) :
  (∀ w, fst (loop w) = Ret tt) → ∀ ticks w, fst (loops loop ticks w) = Ret tt.
Proof.
  intros Hloop ticks. induction ticks as [|t rest IH]; intros w; [done|].
  cbn [loops]. unfold bind at 1. cbn [sense modify].
  unfold bind at 1.
  specialize (Hloop (snd (sense t w))). cbn [sense modify snd] in Hloop.
  destruct (loop _) as [[[]|] w2]; cbn in *; by try discriminate.
Qed.

(** *** The blinking loop of solardatalog *)

Lemma add_events_nil (w : World F) : add_events [] w = w.
Proof. destruct w. unfold add_events; cbn. by rewrite app_nil_r. Qed.

Lemma add_events_app (a b : list Event) (w : World F) :
  add_events b (add_events a w) = add_events (a ++ b) w.
Proof. destruct w. unfold add_events; cbn. by rewrite app_assoc. Qed.

Lemma blink_events (cfg : Config) (w : World F) :
  solardatalog.blink cfg w
  = (Ret tt,
     add_events
       (blinks 1 (to_ulong (int_mul (int_div (frequency cfg) (frequency cfg)) 1000)))
       w).
Proof.
  destruct w. unfold solardatalog.blink. step. cbn [blinks app].
  by rewrite <- !app_assoc.
Qed.

Lemma blinks_app (j k : nat) (d : Z) : blinks j d ++ blinks k d = blinks (j + k) d.
Proof. induction j as [|j IH]; [done|]. cbn. by rewrite IH. Qed.

Lemma for_le_blink (cfg : Config) (hi : Z) (fuel : nat) : ∀ (i : Z) (w : World F),
  ∃ k : nat,
    for_le fuel i hi (solardatalog.blink cfg) w
    = (Ret tt,
       add_events
         (blinks k (to_ulong (int_mul (int_div (frequency cfg) (frequency cfg)) 1000)))
         w).
Proof.
  induction fuel as [|n IH]; intros i w.
  - exists 0%nat. cbn. by rewrite add_events_nil.
  - cbn [for_le]. destruct (i <=? hi).
    + unfold bind. rewrite blink_events.
      destruct (IH (int_add i 1) (add_events (blinks 1 (to_ulong
        (int_mul (int_div (frequency cfg) (frequency cfg)) 1000))) w)) as [k Hk].
      exists (1 + k)%nat. rewrite Hk, add_events_app, blinks_app. reflexivity.
    + exists 0%nat. cbn. by rewrite add_events_nil.
Qed.

(** With [i] and [hi] in the range of [int], the loop runs once for each
    value from [i] to [hi], whatever fuel is left over. *)

Lemma for_le_blink_count (cfg : Config) (hi : Z) (fuel : nat) :
  ∀ (i : Z) (w : World F),
  1 ≤ i → hi ≤ 32766 →
  for_le fuel i hi (solardatalog.blink cfg) w
  = (Ret tt,
     add_events
       (blinks (Nat.min fuel (Z.to_nat (hi - i + 1)))
          (to_ulong (int_mul (int_div (frequency cfg) (frequency cfg)) 1000)))
       w).
Proof.
  induction fuel as [|n IH]; intros i w Hi Hhi.
  - cbn. by rewrite add_events_nil.
  - cbn [for_le]. destruct (Z.leb_spec i hi) as [Hle|Hgt].
    + unfold bind. rewrite blink_events.
      assert (int_add i 1 = i + 1) as -> by (unfold int_add, wrap_int; lia).
      rewrite IH by lia. rewrite add_events_app, blinks_app.
      do 3 f_equal. lia.
    + replace (Z.to_nat (hi - i + 1)) with 0%nat by lia.
      rewrite Nat.min_0_r. cbn. by rewrite add_events_nil.
Qed.

Lemma for_le_fuel_enough (cfg : Config) (hi : Z) (extra : nat) (w : World F) :
  hi ≤ 32766 →
  for_le (Z.to_nat hi + extra) 1 hi (solardatalog.blink cfg) w
  = for_le (Z.to_nat hi) 1 hi (solardatalog.blink cfg) w.
Proof.
  intros Hhi. rewrite !for_le_blink_count by lia.
  do 3 f_equal. lia.
Qed.

Lemma delays_blinks (k : nat) (d : Z) : delays (blinks k d) = Z.of_nat k * (2 * d).
Proof. induction k as [|k IH]; [reflexivity|]. cbn [blinks app delays]. lia. Qed.

Lemma scoped_blinks (k : nat) (d : Z) : scoped None (blinks k d) = Some None.
Proof. induction k as [|k IH]; [reflexivity|]. exact IH. Qed.

Lemma adjustments_blinks (k : nat) (d : Z) : adjustments (blinks k d) = [].
Proof. induction k as [|k IH]; [reflexivity|]. exact IH. Qed.

Lemma rows_stored_blinks (k : nat) (d : Z) : rows_stored (blinks k d) = 0%nat.
Proof. induction k as [|k IH]; [reflexivity|]. exact IH. Qed.

End Runtime.

(** ** One iteration of [loop] *)

Ltac run_blinks :=
  match goal with
  | |- context [for_le ?n ?i ?hi (solardatalog.blink ?c) ?w] =>
      let k := fresh "k" in
      let Hk := fresh "Hk" in
      destruct (for_le_blink c hi n i w) as [k Hk]; rewrite Hk; clear Hk; step
  end.

Ltac exec_loop :=
  unfold SolarFinalVer2.loop, SolarFinalVer2.ReadData,
         solardatalog.loop, solardatalog.ReadData;
  exec; try run_blinks.

Ltac same_name := cbn; repeat (rewrite decide_True by reflexivity; cbn).

Ltac after_trace Htrace :=
  rewrite <- ?app_assoc; cbn [app]; rewrite ?scoped_app, ?Htrace; same_name.

Section Iteration.
Context {F : Type} `{FloatOps F}.

Lemma V2_loop_returns (cfg : Config) (w : World F) :
  fst (SolarFinalVer2.loop cfg w) = Ret tt.
Proof. exec_loop; reflexivity. Qed.

Lemma V2_loop_scoped (cfg : Config) (w : World F) :
  file w = None →
  scoped None (events_of (SolarFinalVer2.loop cfg) w) = Some None
  ∧ file (snd (SolarFinalVer2.loop cfg w)) = None.
Proof.
  intros Hfile. split; exec_loop; try reflexivity;
    since_start; same_name; reflexivity.
Qed.

Lemma datalog_loop_scoped (cfg : Config) (w : World F) :
  file w = None →
  scoped None (events_of (solardatalog.loop cfg) w) = Some None
  ∧ file (snd (solardatalog.loop cfg w)) = None.
Proof.
  intros Hfile. split; exec_loop; try reflexivity;
    since_start; same_name; rewrite ?scoped_blinks; try reflexivity.
  all: rewrite !scoped_app; same_name; apply scoped_blinks.
Qed.

Lemma V2_loop_closed (cfg : Config) (t : Tick F) (w : World F) :
  closed w → closed (snd (SolarFinalVer2.loop cfg (snd (sense t w)))).
Proof.
  intros [Hfile Htrace]. unfold closed. split; exec_loop; try reflexivity;
    after_trace Htrace; reflexivity.
Qed.

Lemma datalog_loop_closed (cfg : Config) (t : Tick F) (w : World F) :
  closed w → closed (snd (solardatalog.loop cfg (snd (sense t w)))).
Proof.
  intros [Hfile Htrace]. unfold closed. split; exec_loop; try reflexivity;
    after_trace Htrace; rewrite ?scoped_blinks; try reflexivity.
  all: rewrite !scoped_app; same_name; apply scoped_blinks.
Qed.


Lemma datalog_loop_delays (cfg : Config) (w : World F) :
  0 < frequency cfg ≤ 32767 → ina_ok w = true → sd_ok w = true →
  delays (events_of (solardatalog.loop cfg) w) = Z.quot (frequency cfg) 2 * 2000.
Proof.
  intros Hf Hina Hsd.
  assert (Hquot : Z.quot (frequency cfg) (frequency cfg) = 1)
    by (apply Z.quot_same; lia).
  assert (Hhalf : 0 ≤ Z.quot (frequency cfg) 2 ≤ 16383).
  { rewrite Z.quot_div_nonneg by lia. lia. }
  unfold solardatalog.loop, solardatalog.ReadData. open_records. step.
  rewrite for_le_blink_count by (unfold int_div; lia). step.
  since_start. rewrite ?delays_app, ?delays_blinks. cbn [delays].
  unfold int_div. rewrite Hquot.
  replace (Z.quot (frequency cfg) 2 - 1 + 1) with (Z.quot (frequency cfg) 2) by lia.
  rewrite Nat.min_id, delays_blinks, Z2Nat.id by lia.
  change (to_ulong (int_mul 1 1000)) with 1000. lia.
Qed.

(** With an odd interval the blinking loop of solardatalog loses the last
    second. *)

Lemma datalog_loop_delays_odd (cfg : Config) (w : World F) :
  0 < frequency cfg ≤ 32767 → Z.odd (frequency cfg) = true →
  ina_ok w = true → sd_ok w = true →
  delays (events_of (solardatalog.loop cfg) w) = (frequency cfg - 1) * 1000.
Proof.
  intros Hf Hodd Hina Hsd. rewrite datalog_loop_delays by done.
  apply Z.odd_spec in Hodd. destruct Hodd as [k Hk].
  rewrite Z.quot_div_nonneg by lia. lia.
Qed.

Lemma V2_loop_adjustments (cfg : Config) (t : Tick F) (w : World F) :
  adjustments (trace (snd (SolarFinalVer2.loop cfg (snd (sense t w)))))
  = adjustments (trace w).
Proof.
  exec_loop; rewrite <- ?app_assoc; cbn [app];
    rewrite adjustments_app; cbn; by rewrite app_nil_r.
Qed.

Lemma datalog_loop_adjustments (cfg : Config) (t : Tick F) (w : World F) :
  adjustments (trace (snd (solardatalog.loop cfg (snd (sense t w)))))
  = adjustments (trace w).
Proof.
  exec_loop; rewrite <- ?app_assoc; cbn [app];
    rewrite adjustments_app; cbn; rewrite ?adjustments_blinks;
    by rewrite app_nil_r.
Qed.

End Iteration.

(** ** [setup] *)

Ltac exec_setup :=
  unfold SolarFinalVer2.run, solardatalog.run,
         SolarFinalVer2.setup, solardatalog.setup;
  exec.

Ltac in_trace :=
  cbn [app];
  repeat (apply list_elem_of_here || apply list_elem_of_further).

Section Setup.
Context {F : Type} `{FloatOps F}.

Lemma V2_setup_closed (cfg : Config) (b : Boot F) (files : gmap string string) :
  closed (snd (SolarFinalVer2.setup cfg (power_on b files))).
Proof. unfold closed. split; exec_setup; try reflexivity; same_name; reflexivity. Qed.

Lemma datalog_setup_closed (cfg : Config) (b : Boot F)
  (files : gmap string string) :
  closed (snd (solardatalog.setup cfg (power_on b files))).
Proof. unfold closed. split; exec_setup; try reflexivity; same_name; reflexivity. Qed.

Lemma appended_nothing (fs : gmap string string) (fname : string) :
  appended fs fs fname "".
Proof. intros name. case_decide; subst; by rewrite ?append_nil_r. Qed.

Lemma appended_opened (fs : gmap string string) (fname : string) :
  appended fs (<[fname := content fs fname]> fs) fname "".
Proof.
  intros name. case_decide; subst.
  - by rewrite content_insert_eq, append_nil_r.
  - by rewrite content_insert_ne.
Qed.

Lemma appended_insert (fs : gmap string string) (fname c bytes : string) :
  c = content fs fname +:+ bytes → appended fs (<[fname := c]> fs) fname bytes.
Proof.
  intros ->. intros name. case_decide; subst.
  - by rewrite content_insert_eq.
  - by rewrite content_insert_ne.
Qed.

Ltac files_after_setup :=
  lazymatch goal with
  | Hsize : (String.length (content (<[?f := _]> _) ?f) =? 0)%nat = true |- _ =>
      right;
      apply Nat.eqb_eq in Hsize; rewrite content_insert_eq in Hsize;
      apply length_zero_empty in Hsize;
      split; [exact Hsize|];
      rewrite ?content_insert_eq, ?insert_insert_eq;
      apply appended_insert; rewrite Hsize; unfold header_line;
      by rewrite ?append_assoc
  | |- _ =>
      left; (apply appended_nothing || apply appended_opened)
  end.

Lemma V2_setup_files (cfg : Config) (b : Boot F) (files : gmap string string) :
  let w' := snd (SolarFinalVer2.setup cfg (power_on b files)) in
  let fname := string_of_list_ascii (filename w') in
  file w' = None
  ∧ (appended files (sd_files w') fname ""
     ∨ content files fname = ""
       ∧ appended files (sd_files w') fname header_line).
Proof. split; exec_setup; try reflexivity; files_after_setup. Qed.

Lemma datalog_setup_files (cfg : Config) (b : Boot F)
  (files : gmap string string) :
  let w' := snd (solardatalog.setup cfg (power_on b files)) in
  let fname := string_of_list_ascii (filename w') in
  file w' = None
  ∧ (appended files (sd_files w') fname ""
     ∨ content files fname = ""
       ∧ appended files (sd_files w') fname header_line).
Proof. split; exec_setup; try reflexivity; files_after_setup. Qed.

End Setup.

(** ** Startup faults *)

Section Faults.
Context {F : Type} `{FloatOps F}.

(** C5. When the INA219 is absent at startup, either sketch stops in its
    spin loop whatever happens afterwards: the run hangs for every list of
    ticks, [StoreData] never runs, and no file gains more than the header
    line; in solardatalog the card is not touched at all.  The diagnostic
    is on the serial line (in SolarFinalVer2 once the clock and the card
    passed their own checks, which come first). *)
Theorem C5_sensor_absent_halts (cfg : Config) (b : Boot F)
  (files : gmap string string) (ticks : list (Tick F)) :
  boot_ina_ok b = false →
  let v2 := SolarFinalVer2.run cfg ticks (power_on b files) in
  let dl := solardatalog.run cfg ticks (power_on b files) in
  let diagnostic := SerialOut ("Error : INA219 not connected!" +:+ crlf) in
  (fst v2 = Hang
   ∧ rows_stored (trace (snd v2)) = 0%nat
   ∧ (∀ name, content (sd_files (snd v2)) name = content files name
              ∨ content files name = ""
                ∧ content (sd_files (snd v2)) name = header_line)
   ∧ (boot_rtc_ok b = true → boot_sd_ok b = true →
      diagnostic ∈ trace (snd v2)))
  ∧ (fst dl = Hang
     ∧ rows_stored (trace (snd dl)) = 0%nat
     ∧ sd_files (snd dl) = files
     ∧ diagnostic ∈ trace (snd dl)).
Proof.
  intros Hina v2 dl diagnostic.
  assert (Hv2 : fst (SolarFinalVer2.setup cfg (power_on b files)) = Hang)
    by (exec_setup; reflexivity).
  assert (Hdl : fst (solardatalog.setup cfg (power_on b files)) = Hang)
    by (exec_setup; reflexivity).
  unfold v2, dl, SolarFinalVer2.run, solardatalog.run.
  rewrite !sketch_hang by done. cbn [fst snd].
  split; [split; [done|split; [|split]]|split; [done|split; [|split]]].
  - exec_setup; reflexivity.
  - intros name.
    destruct (V2_setup_files cfg b files) as [_ [Hsame|[Hempty Hhead]]].
    + left. rewrite (Hsame name). case_decide; subst; by rewrite ?append_nil_r.
    + rewrite (Hhead name). case_decide; subst; [right|by left].
      by rewrite Hempty.
  - intros Hrtc Hsd. unfold diagnostic. exec_setup; in_trace.
  - exec_setup; reflexivity.
  - exec_setup; reflexivity.
  - unfold diagnostic. exec_setup; in_trace.
Qed.


(** C6. When the clock is present but not running at startup, either
    sketch sets it exactly once, to the build time, and never again in the
    run.  SolarFinalVer2 then goes on: with the card present too it
    finishes [setup] and runs every iteration of [loop].  solardatalog
    hangs after the adjustment. *)
Theorem C6_clock_reset_once (cfg : Config) (b : Boot F)
  (files : gmap string string) (ticks : list (Tick F)) :
  boot_ina_ok b = true → boot_rtc_ok b = true → boot_rtc_running b = false →
  let v2 := SolarFinalVer2.run cfg ticks (power_on b files) in
  let dl := solardatalog.run cfg ticks (power_on b files) in
  (adjustments (trace (snd v2)) = [build_time cfg]
   ∧ rtc_clock (snd (SolarFinalVer2.setup cfg (power_on b files)))
     = build_time cfg
   ∧ (boot_sd_ok b = true → fst v2 = Ret tt))
  ∧ (adjustments (trace (snd dl)) = [build_time cfg]
     ∧ rtc_clock (snd dl) = build_time cfg
     ∧ fst dl = Hang).
Proof.
  intros Hina Hrtc Hrun v2 dl. split; [split; [|split]|].
  - unfold v2, SolarFinalVer2.run.
    apply (sketch_invariant (λ w, adjustments (trace w) = [build_time cfg])).
    + exec_setup; reflexivity.
    + intros t w Hw. by rewrite V2_loop_adjustments.
  - exec_setup; reflexivity.
  - intros Hsd. unfold v2, SolarFinalVer2.run.
    rewrite sketch_ret by (exec_setup; reflexivity).
    apply loops_return. apply V2_loop_returns.
  - assert (Hdl : fst (solardatalog.setup cfg (power_on b files)) = Hang)
      by (exec_setup; reflexivity).
    unfold dl, solardatalog.run. rewrite sketch_hang by done. cbn [fst snd].
    repeat split; exec_setup; reflexivity.
Qed.


(** C10. In SolarFinalVer2, with clock and card present and the INA219
    absent, [setup] hangs at the sensor check with the dated file already
    on the card, the header line in it when it was empty or new, and
    the file opened and closed before the sensor's diagnostic. *)
Theorem C10_header_before_sensor_check (cfg : Config) (b : Boot F)
  (files : gmap string string) (ticks : list (Tick F)) :
  boot_rtc_ok b = true → boot_sd_ok b = true → boot_ina_ok b = false →
  let r := SolarFinalVer2.run cfg ticks (power_on b files) in
  let clock := if boot_rtc_running b then boot_clock b else build_time cfg in
  let fname :=
    string_of_list_ascii (generate_filename filename_template clock) in
  let before := content files fname in
  fst r = Hang
  ∧ sd_files (snd r) !! fname
    = Some (if decide (before = "") then header_line else before)
  ∧ ∃ pre,
      trace (snd r)
      = pre ++ [SdClose fname;
                SerialOut ("SD card OK!" +:+ crlf);
                SerialOut ("Error : INA219 not connected!" +:+ crlf);
                SerialOut ("Connect the INA219, then push the reset button"
                           +:+ crlf)]
      ∧ SdOpen fname ∈ pre.
Proof.
  intros Hrtc Hsd Hina r clock fname before.
  assert (Hhang : fst (SolarFinalVer2.setup cfg (power_on b files)) = Hang)
    by (exec_setup; reflexivity).
  unfold r, SolarFinalVer2.run. rewrite sketch_hang by done. cbn [fst snd].
  split; [done|]. clear Hhang r.
  unfold before, fname, clock. clear before fname clock.
  split.
  - exec_setup; rewrite ?lookup_insert_eq; f_equal.
    all: match goal with
         | Hsize : (_ =? 0)%nat = true |- _ =>
             apply Nat.eqb_eq in Hsize; rewrite content_insert_eq in Hsize;
             apply length_zero_empty in Hsize;
             rewrite !content_insert_eq, Hsize, decide_True by done;
             unfold header_line; by rewrite ?append_assoc
         | Hsize : (_ =? 0)%nat = false |- _ =>
             apply Nat.eqb_neq in Hsize; rewrite content_insert_eq in Hsize;
             rewrite decide_False; [done|];
             intros Hempty; by rewrite Hempty in Hsize
         end.
  - exec_setup.
    all: match goal with
         | |- ∃ pre, ?tr = _ ∧ _ => exists (take (length tr - 4) tr)
         end.
    all: split; [reflexivity|].
    all: cbn [length Nat.sub take firstn app]; in_trace.
Qed.

End Faults.

Lemma C5_sensor_absent_witness :
  fst (SolarFinalVer2.run (bench_config 5 false 10) [bench_tick 5 1%Q]
         (power_on (mkBoot false 0%Q true true bench_build true) ∅)) = Hang
  ∧ fst (solardatalog.run (bench_config 20 false 10) [bench_tick 20 1%Q]
           (power_on (mkBoot false 0%Q true true bench_build true) ∅)) = Hang.
Proof.
  pose proof (C5_sensor_absent_halts (bench_config 5 false 10)
                (mkBoot false 0%Q true true bench_build true) ∅
                [bench_tick 5 1%Q] eq_refl) as [[Hv2 _] _].
  pose proof (C5_sensor_absent_halts (bench_config 20 false 10)
                (mkBoot false 0%Q true true bench_build true) ∅
                [bench_tick 20 1%Q] eq_refl) as [_ [Hdl _]].
  split; [exact Hv2|exact Hdl].
Defined.

Lemma C6_clock_reset_witness :
  adjustments
    (trace (snd (SolarFinalVer2.run (bench_config 5 false 10) [bench_tick 5 1%Q]
                   (power_on (mkBoot true 0%Q true false bench_build true) ∅))))
  = [bench_build]
  ∧ fst (solardatalog.run (bench_config 20 false 10) [bench_tick 20 1%Q]
           (power_on (mkBoot true 0%Q true false bench_build true) ∅)) = Hang.
Proof.
  pose proof (C6_clock_reset_once (bench_config 5 false 10)
                (mkBoot true 0%Q true false bench_build true) ∅
                [bench_tick 5 1%Q] eq_refl eq_refl eq_refl) as [[Hv2 _] _].
  pose proof (C6_clock_reset_once (bench_config 20 false 10)
                (mkBoot true 0%Q true false bench_build true) ∅
                [bench_tick 20 1%Q] eq_refl eq_refl eq_refl) as [_ [_ [_ Hdl]]].
  split; [exact Hv2|exact Hdl].
Defined.

Lemma C10_header_before_sensor_witness :
  sd_files
    (snd (SolarFinalVer2.run (bench_config 5 false 10) [bench_tick 5 1%Q]
            (power_on (mkBoot false 0%Q true true bench_build true) ∅)))
  !! "20240509.csv"
  = Some header_line.
Proof.
  pose proof (C10_header_before_sensor_check (bench_config 5 false 10)
                (mkBoot false 0%Q true true bench_build true) ∅
                [bench_tick 5 1%Q] eq_refl eq_refl eq_refl) as [_ [Hfile _]].
  exact Hfile.
Defined.

(** ** The store of one iteration *)

Ltac bracketed :=
  since_start; cbn [file_events bytes_written map app join];
  rewrite ?content_insert_eq, ?append_assoc, ?append_nil_r; reflexivity.

Section Bracket.
Context {F : Type} `{FloatOps F}.

Lemma file_events_blinks (k : nat) (d : Z) : file_events (blinks k d) = [].
Proof. induction k as [|k IH]; [reflexivity|]. exact IH. Qed.

Lemma bytes_written_blinks (k : nat) (d : Z) : bytes_written (blinks k d) = [].
Proof. induction k as [|k IH]; [reflexivity|]. exact IH. Qed.

Lemma V2_loop_bracket (cfg : Config) (w : World F) :
  file w = None → sd_ok w = true →
  let dated := string_of_list_ascii (filename w) in
  let evs := events_of (SolarFinalVer2.loop cfg) w in
  file_events evs
  = SdOpen dated :: map (SdWrite dated) (bytes_written evs) ++ [SdClose dated]
  ∧ content (sd_files (snd (SolarFinalVer2.loop cfg w))) dated
    = content (sd_files w) dated +:+ join (bytes_written evs)
  ∧ (averaged cfg = false →
     join (bytes_written evs) = row_bytes (rtc_clock w) (ina_mA w)).
Proof.
  intros Hfile Hsd. split; [|split]; [exec_loop; bracketed ..|].
  intros Havg. exec_loop. since_start.
  cbn [file_events bytes_written map app join]. unfold row_bytes.
  by rewrite timestamp_pretty, ?append_assoc, ?append_nil_r.
Qed.

Lemma datalog_loop_bracket (cfg : Config) (w : World F) :
  file w = None → ina_ok w = true → sd_ok w = true →
  let dated := string_of_list_ascii (filename w) in
  let evs := events_of (solardatalog.loop cfg) w in
  file_events evs
  = SdOpen dated :: map (SdWrite dated) (bytes_written evs) ++ [SdClose dated]
  ∧ content (sd_files (snd (solardatalog.loop cfg w))) dated
    = content (sd_files w) dated +:+ join (bytes_written evs)
  ∧ join (bytes_written evs) = row_bytes (rtc_clock w) (ina_mA w).
Proof.
  intros Hfile Hina Hsd. split; [|split]; exec_loop; since_start;
    cbn [file_events bytes_written map app join];
    rewrite ?file_events_blinks, ?bytes_written_blinks;
    cbn [file_events bytes_written map app join]; unfold row_bytes;
    rewrite ?content_insert_eq, ?timestamp_pretty, ?append_assoc,
      ?append_nil_r; reflexivity.
Qed.

End Bracket.

(** ** The Logger Cycle *)

Section Cycle.
Context {F : Type} `{FloatOps F}.

(** C7. [StoreData] appends to the open file exactly the hour, minute and
    second as decimal numerals without padding, separated by colons, then
    a comma, the printed value, a comma and the line terminator; no other
    file changes. *)
Theorem C7_row_format (w : World F) (v : F) (name : string) :
  file w = Some name →
  let w' := snd (StoreData v w) in
  fst (StoreData v w) = Ret tt
  ∧ content (sd_files w') name
    = content (sd_files w) name +:+ row_bytes (rtc_clock w) v
  ∧ (∀ other, other ≠ name →
       content (sd_files w') other = content (sd_files w) other).
Proof.
  intros Hfile w'.
  destruct (StoreData_spec w v name Hfile) as (Hret & Hfiles & _).
  split; [exact Hret|]. unfold w'. rewrite Hfiles. split.
  - apply content_insert_eq.
  - intros other Hne. by apply content_insert_ne.
Qed.

(** C8. In every iteration of [loop] of either sketch that starts with the
    handle closed and finds the card (and, in solardatalog, passes the
    two checks before the store), the card sees exactly this, in this
    order: the dated file is opened, the bytes of the iteration are
    written to it, and it is closed.  The file is opened for appending:
    its content afterwards is its content before followed by the bytes
    written, and those are one data row with the clock time and the sensor
    reading of the iteration (in solardatalog, and in SolarFinalVer2
    without averaging).  In every iteration, with or without the card,
    each write
    goes to the file opened in this iteration, no delay starts while a
    file is open and the handle is closed when the iteration ends; so over
    a whole run, from [setup] on, no delay and no iteration boundary sees
    an open file. *)
Theorem C8_file_scoped_per_iteration (cfg : Config) (w : World F)
  (b : Boot F) (files : gmap string string) (ticks : list (Tick F)) :
  file w = None →
  let dated := string_of_list_ascii (filename w) in
  (scoped None (events_of (SolarFinalVer2.loop cfg) w) = Some None
   ∧ file (snd (SolarFinalVer2.loop cfg w)) = None)
  ∧ (scoped None (events_of (solardatalog.loop cfg) w) = Some None
     ∧ file (snd (solardatalog.loop cfg w)) = None)
  ∧ closed (snd (SolarFinalVer2.run cfg ticks (power_on b files)))
  ∧ closed (snd (solardatalog.run cfg ticks (power_on b files)))
  ∧ (sd_ok w = true →
     let evs := events_of (SolarFinalVer2.loop cfg) w in
     file_events evs
     = SdOpen dated :: map (SdWrite dated) (bytes_written evs)
       ++ [SdClose dated]
     ∧ content (sd_files (snd (SolarFinalVer2.loop cfg w))) dated
       = content (sd_files w) dated +:+ join (bytes_written evs)
     ∧ (averaged cfg = false →
        join (bytes_written evs) = row_bytes (rtc_clock w) (ina_mA w)))
  ∧ (ina_ok w = true → sd_ok w = true →
     let evs := events_of (solardatalog.loop cfg) w in
     file_events evs
     = SdOpen dated :: map (SdWrite dated) (bytes_written evs)
       ++ [SdClose dated]
     ∧ content (sd_files (snd (solardatalog.loop cfg w))) dated
       = content (sd_files w) dated +:+ join (bytes_written evs)
     ∧ join (bytes_written evs) = row_bytes (rtc_clock w) (ina_mA w)).
Proof.
  intros Hfile dated.
  split; [by apply V2_loop_scoped|].
  split; [by apply datalog_loop_scoped|].
  split; [|split; [|split]].
  - unfold SolarFinalVer2.run.
    apply sketch_invariant; [apply V2_setup_closed|].
    intros t w0. apply V2_loop_closed.
  - unfold solardatalog.run.
    apply sketch_invariant; [apply datalog_setup_closed|].
    intros t w0. apply datalog_loop_closed.
  - intros Hsd. by apply V2_loop_bracket.
  - intros Hina Hsd. by apply datalog_loop_bracket.
Qed.


End Cycle.

Lemma C7_row_format_witness :
  content (sd_files (snd (StoreData 2%Q bench_open))) "20240509.csv"
  = header_line +:+ "9:5:3,2.00," +:+ crlf.
Proof.
  pose proof (C7_row_format bench_open 2%Q "20240509.csv" eq_refl)
    as [_ [Hrow _]].
  rewrite Hrow. vm_compute. reflexivity.
Defined.

Lemma C8_file_scoped_witness :
  scoped None
    (events_of (SolarFinalVer2.loop (bench_config 5 false 10))
       (bench_V2 (bench_config 5 false 10)))
  = Some None
  ∧ file_events
      (events_of (SolarFinalVer2.loop (bench_config 5 false 10))
         (bench_V2 (bench_config 5 false 10)))
    = SdOpen "20240509.csv"
      :: map (SdWrite "20240509.csv") ["9:5:0"; ","; "0.00"; ","; crlf]
      ++ [SdClose "20240509.csv"].
Proof.
  pose proof (C8_file_scoped_per_iteration (bench_config 5 false 10)
                (bench_V2 (bench_config 5 false 10)) bench_boot ∅ []
                eq_refl) as ([Hscoped _] & _ & _ & _ & Hbracket & _).
  split; [exact Hscoped|].
  destruct (Hbracket eq_refl) as [Hevents _].
  rewrite Hevents. vm_compute. reflexivity.
Defined.



(** ** What a run leaves on the card *)

Section Card.
Context {F : Type} `{FloatOps F}.

Lemma rows_bytes_app (r1 r2 : list (DateTime * F)) :
  rows_bytes (r1 ++ r2) = rows_bytes r1 +:+ rows_bytes r2.
Proof.
  induction r1 as [|[now v] r1 IH]; [reflexivity|].
  cbn [app rows_bytes]. by rewrite IH, append_assoc.
Qed.

Lemma appended_trans (fs1 fs2 fs3 : gmap string string)
  (fname a b : string) :
  appended fs1 fs2 fname a → appended fs2 fs3 fname b →
  appended fs1 fs3 fname (a +:+ b).
Proof.
  intros H12 H23 name. rewrite (H23 name).
  case_decide; subst.
  - rewrite (H12 fname), decide_True by done. by rewrite append_assoc.
  - rewrite (H12 name), decide_False by done. reflexivity.
Qed.

Lemma head_of_not_empty (c0 : string) : head_of c0 ≠ "".
Proof. unfold head_of. case_decide; [|done]. discriminate. Qed.

Lemma head_of_head (c0 r : string) : head_of (head_of c0 +:+ r) = head_of c0 +:+ r.
Proof.
  unfold head_of at 1. rewrite decide_False; [done|].
  intros Hempty. apply (f_equal String.length) in Hempty.
  rewrite length_append in Hempty.
  pose proof (head_of_not_empty c0) as Hne.
  destruct (head_of c0); [done|]. cbn in Hempty. lia.
Qed.

Lemma grown_refl (c : string) : grown c c.
Proof. by left. Qed.

Lemma grown_trans (a b c : string) : grown a b → grown b c → grown a c.
Proof.
  intros [->|[r1 ->]] Hbc; [done|].
  destruct Hbc as [->|[r2 ->]].
  - right. by exists r1.
  - right. exists (r1 ++ r2).
    by rewrite head_of_head, rows_bytes_app, append_assoc.
Qed.

Ltac one_row_or_none :=
  lazymatch goal with
  | |- ∃ rows, appended _ (<[_ := _ +:+ crlf]> _) _ _ =>
      eexists [(_, _)];
      rewrite ?content_insert_eq, ?insert_insert_eq;
      apply appended_insert; cbn [rows_bytes]; unfold row_bytes;
      rewrite timestamp_pretty, ?append_assoc, ?append_nil_r; reflexivity
  | |- _ =>
      exists []; (apply appended_nothing || apply appended_opened)
  end.

Lemma V2_loop_row_or_nothing (cfg : Config) (t : Tick F) (w : World F) :
  file w = None →
  row_or_nothing w (snd (SolarFinalVer2.loop cfg (snd (sense t w)))).
Proof.
  intros Hfile. unfold row_or_nothing.
  split; [|split]; exec_loop; try reflexivity; one_row_or_none.
Qed.

Lemma datalog_loop_row_or_nothing (cfg : Config) (t : Tick F) (w : World F) :
  file w = None →
  row_or_nothing w (snd (solardatalog.loop cfg (snd (sense t w)))).
Proof.
  intros Hfile. unfold row_or_nothing.
  split; [|split]; exec_loop; try reflexivity; one_row_or_none.
Qed.

Ltac head_after_setup :=
  lazymatch goal with
  | Hhang : Hang = Ret _ |- _ => discriminate Hhang
  | Hsize : (String.length (content (<[?f := _]> _) ?f) =? 0)%nat = true |- _ =>
      right;
      apply Nat.eqb_eq in Hsize; rewrite content_insert_eq in Hsize;
      apply length_zero_empty in Hsize;
      split; [exact Hsize|];
      rewrite ?content_insert_eq, ?insert_insert_eq;
      apply appended_insert; rewrite Hsize; unfold header_line;
      by rewrite ?append_assoc
  | Hsize : (String.length (content (<[?f := _]> _) ?f) =? 0)%nat = false |- _ =>
      left;
      apply Nat.eqb_neq in Hsize; rewrite content_insert_eq in Hsize;
      split; [apply appended_opened|];
      intros Hempty; by rewrite Hempty in Hsize
  end.

Lemma V2_setup_head (cfg : Config) (b : Boot F) (files : gmap string string) :
  fst (SolarFinalVer2.setup cfg (power_on b files)) = Ret tt →
  let w' := snd (SolarFinalVer2.setup cfg (power_on b files)) in
  let fname := string_of_list_ascii (filename w') in
  appended files (sd_files w') fname "" ∧ content files fname ≠ ""
  ∨ content files fname = ""
    ∧ appended files (sd_files w') fname header_line.
Proof. exec_setup; intros Hret; head_after_setup. Qed.

Lemma datalog_setup_head (cfg : Config) (b : Boot F)
  (files : gmap string string) :
  fst (solardatalog.setup cfg (power_on b files)) = Ret tt →
  let w' := snd (solardatalog.setup cfg (power_on b files)) in
  let fname := string_of_list_ascii (filename w') in
  appended files (sd_files w') fname "" ∧ content files fname ≠ ""
  ∨ content files fname = ""
    ∧ appended files (sd_files w') fname header_line.
Proof. exec_setup; intros Hret; head_after_setup. Qed.

(** The files after a whole run, whatever the sketch: [setup] leaves the
    header at most, every iteration a row at most. *)

Lemma run_grown (setup loop : M F unit) (b : Boot F)
  (files : gmap string string) (ticks : list (Tick F)) (name : string) :
  let w1 := snd (setup (power_on b files)) in
  let fname := string_of_list_ascii (filename w1) in
  file w1 = None →
  (appended files (sd_files w1) fname ""
   ∨ content files fname = "" ∧ appended files (sd_files w1) fname header_line) →
  (fst (setup (power_on b files)) = Ret tt →
   appended files (sd_files w1) fname "" ∧ content files fname ≠ ""
   ∨ content files fname = "" ∧ appended files (sd_files w1) fname header_line) →
  (∀ t w, file w = None → row_or_nothing w (snd (loop (snd (sense t w))))) →
  grown (content files name)
    (content (sd_files (snd (sketch setup loop ticks (power_on b files)))) name).
Proof.
  intros w1 fname Hclosed Hfiles Hhead Hloop.
  destruct (fst (setup (power_on b files))) as [[]|] eqn:Hsetup.
  - rewrite sketch_ret by done. fold w1.
    assert (Hinv : ∀ w, 
      (file w = None ∧ filename w = filename w1
       ∧ ∃ rows, appended (sd_files w1) (sd_files w) fname (rows_bytes rows)) →
      ∀ t, (file (snd (loop (snd (sense t w)))) = None
            ∧ filename (snd (loop (snd (sense t w)))) = filename w1
            ∧ ∃ rows, appended (sd_files w1)
                        (sd_files (snd (loop (snd (sense t w)))))
                        fname (rows_bytes rows))).
    { intros w (Hf & Hn & rows & Hrows) t.
      destruct (Hloop t w Hf) as (Hn' & Hf' & row & Hrow).
      split; [done|]. split; [congruence|].
      exists (rows ++ row). rewrite rows_bytes_app.
      apply (appended_trans _ (sd_files w)); [done|].
      unfold fname. by rewrite <- Hn. }
    pose proof (loops_invariant
      (λ w, file w = None ∧ filename w = filename w1
            ∧ ∃ rows, appended (sd_files w1) (sd_files w) fname (rows_bytes rows))
      loop (λ t w Hw, Hinv w Hw t) ticks w1) as Hfinal.
    destruct Hfinal as (_ & _ & rows & Hrows).
    { split; [done|]. split; [done|]. exists []. apply appended_nothing. }
    rewrite (Hrows name).
    destruct (Hhead eq_refl) as [[Hsame Hne]|[Hempty Hheader]].
    + case_decide as Hname.
      * rewrite Hname, (Hsame fname), decide_True, append_nil_r by done.
        right. exists rows. unfold head_of. by rewrite decide_False.
      * rewrite (Hsame name), decide_False by done. by left.
    + case_decide as Hname.
      * rewrite Hname, (Hheader fname), decide_True, Hempty by done.
        right. exists rows. unfold head_of. by rewrite decide_True.
      * rewrite (Hheader name), decide_False by done. by left.
  - rewrite sketch_hang by done. cbn [snd]. fold w1.
    destruct Hfiles as [Hsame|[Hempty Hheader]].
    + left. rewrite (Hsame name). case_decide; subst; by rewrite ?append_nil_r.
    + rewrite (Hheader name). case_decide; subst; [|by left].
      right. exists []. unfold head_of. rewrite decide_True by done.
      rewrite Hempty. cbn. by rewrite append_nil_r.
Qed.

Lemma V2_run_grown (cfg : Config) (b : Boot F) (files : gmap string string)
  (ticks : list (Tick F)) (name : string) :
  grown (content files name)
    (content (sd_files (snd (SolarFinalVer2.run cfg ticks (power_on b files))))
       name).
Proof.
  unfold SolarFinalVer2.run. apply run_grown.
  - apply V2_setup_files.
  - apply V2_setup_files.
  - apply V2_setup_head.
  - intros t w. apply V2_loop_row_or_nothing.
Qed.

Lemma datalog_run_grown (cfg : Config) (b : Boot F)
  (files : gmap string string) (ticks : list (Tick F)) (name : string) :
  grown (content files name)
    (content (sd_files (snd (solardatalog.run cfg ticks (power_on b files))))
       name).
Proof.
  unfold solardatalog.run. apply run_grown.
  - apply datalog_setup_files.
  - apply datalog_setup_files.
  - apply datalog_setup_head.
  - intros t w. apply datalog_loop_row_or_nothing.
Qed.

Lemma sessions_grown (run : list (Tick F) → M F unit)
  (sessions : list (Session F)) :
  (∀ b files ticks name,
     grown (content files name)
       (content (sd_files (snd (run ticks (power_on b files)))) name)) →
  ∀ files name,
    grown (content files name)
      (content (run_sessions run sessions files) name).
Proof.
  intros Hrun. induction sessions as [|[b ticks] rest IH]; intros files name.
  - apply grown_refl.
  - cbn [run_sessions foldl fst snd].
    eapply grown_trans; [apply (Hrun b files ticks name)|].
    apply IH.
Qed.

(** C3. The header block of [setup] writes the header line exactly when
    the file it opened is empty, and over any sequence of power cycles of
    either sketch a file either stays as it is or becomes its old content,
    with the header line in place of an empty content, followed by data
    rows only: a file that already had content never gets a header, and
    an empty one gets it once. *)
Theorem C3_header_iff_empty (cfg : Config) (w : World F)
  (sessions : list (Session F)) (files : gmap string string) (name : string) :
  sd_ok w = true → file w = None →
  let dated := string_of_list_ascii (filename w) in
  let before := content (sd_files w) dated in
  content (sd_files (snd (open_and_head w))) dated
  = (if decide (before = "") then header_line else before)
  ∧ grown (content files name)
      (content (run_sessions (SolarFinalVer2.run cfg) sessions files) name)
  ∧ grown (content files name)
      (content (run_sessions (solardatalog.run cfg) sessions files) name).
Proof.
  intros Hsd Hfile dated before. split; [|split].
  - rewrite open_and_head_files by done. apply content_insert_eq.
  - apply sessions_grown. intros. apply V2_run_grown.
  - apply sessions_grown. intros. apply datalog_run_grown.
Qed.

End Card.

Lemma C3_header_witness :
  content (sd_files (snd (open_and_head (power_on bench_boot ∅))))
    "YYYYMMDD.csv"
  = header_line.
Proof.
  pose proof (C3_header_iff_empty (bench_config 5 false 10)
                (power_on bench_boot ∅) [] ∅ "20240509.csv"
                eq_refl eq_refl) as [Hhead _].
  exact Hhead.
Defined.

(** ** Averaging *)

Ltac absurd_eqb :=
  match goal with
  | Hpart : (?a =? ?b) = false, Hfull : ?a = ?b |- _ =>
      apply Z.eqb_neq in Hpart; contradiction
  | Hfull : (?a =? ?b) = true, Hpart : ?a ≠ ?b |- _ =>
      apply Z.eqb_eq in Hfull; contradiction
  end.

Section Averaging.
Context {F : Type} `{FloatOps F}.

(** An iteration that completes a group stores the running total divided
    by [datapoints] and sets [counter] back to zero; the running total
    stays. *)

Lemma V2_loop_emits (cfg : Config) (t : Tick F) (w : World F) :
  averaged cfg = true → int_add (counter w) 1 = datapoints cfg →
  file w = None → tick_sd_ok t = true →
  let w' := snd (SolarFinalVer2.loop cfg (snd (sense t w))) in
  let total := f_add (averagedcurrent_mA w) (tick_mA t) in
  counter w' = 0
  ∧ averagedcurrent_mA w' = total
  ∧ filename w' = filename w ∧ file w' = None
  ∧ appended (sd_files w) (sd_files w') (string_of_list_ascii (filename w))
      (row_bytes (tick_clock t) (f_div total (f_of_int (datapoints cfg)))).
Proof.
  intros Havg Hfull Hfile Hsd. exec_loop; try absurd_eqb.
  repeat split.
  rewrite ?content_insert_eq, ?insert_insert_eq.
  apply appended_insert. unfold row_bytes.
  by rewrite timestamp_pretty, ?append_assoc.
Qed.

(** Any other iteration only adds the sample and counts it. *)

Lemma V2_loop_accumulates (cfg : Config) (t : Tick F) (w : World F) :
  averaged cfg = true → int_add (counter w) 1 ≠ datapoints cfg →
  file w = None →
  let w' := snd (SolarFinalVer2.loop cfg (snd (sense t w))) in
  counter w' = int_add (counter w) 1
  ∧ averagedcurrent_mA w' = f_add (averagedcurrent_mA w) (tick_mA t)
  ∧ filename w' = filename w ∧ file w' = None
  ∧ appended (sd_files w) (sd_files w') (string_of_list_ascii (filename w)) "".
Proof.
  intros Havg Hpart Hfile. exec_loop; try absurd_eqb.
  all: repeat split; (apply appended_nothing || apply appended_opened).
Qed.

(** Between iterations [counter] stays below [datapoints]. *)

Lemma V2_counter_in_range (cfg : Config) (t : Tick F) (w : World F) :
  averaged cfg = true → 1 ≤ datapoints cfg ≤ 32767 →
  0 ≤ counter w < datapoints cfg →
  0 ≤ counter (snd (SolarFinalVer2.loop cfg (snd (sense t w))))
    < datapoints cfg.
Proof.
  intros Havg HN Hc. exec_loop; try lia.
  all: match goal with
       | Hpart : (_ =? _) = false |- _ => apply Z.eqb_neq in Hpart
       end.
  all: unfold int_add, wrap_int in *; lia.
Qed.

Lemma V2_counter_in_range_run (cfg : Config) (b : Boot F)
  (files : gmap string string) (ticks : list (Tick F)) :
  averaged cfg = true → 1 ≤ datapoints cfg ≤ 32767 →
  0 ≤ counter (snd (SolarFinalVer2.run cfg ticks (power_on b files)))
    < datapoints cfg.
Proof.
  intros Havg HN. unfold SolarFinalVer2.run.
  apply (sketch_invariant (λ w, 0 ≤ counter w < datapoints cfg)).
  - assert (counter (snd (SolarFinalVer2.setup cfg (power_on b files))) = 0)
      as -> by (exec_setup; reflexivity).
    lia.
  - intros t w. by apply V2_counter_in_range.
Qed.

(** With the card in place, the iterations of a run append the rows of
    [averaged_rows] to the dated file, and nothing else. *)

Lemma V2_loops_averaged (cfg : Config) (ticks : list (Tick F)) :
  averaged cfg = true →
  Forall (λ t, tick_sd_ok t = true) ticks →
  ∀ w : World F, file w = None →
  let w' := snd (loops (SolarFinalVer2.loop cfg) ticks w) in
  appended (sd_files w) (sd_files w') (string_of_list_ascii (filename w))
    (rows_bytes
       (averaged_rows (datapoints cfg) (averagedcurrent_mA w) (counter w) ticks)).
Proof.
  intros Havg Hsd. induction Hsd as [|t rest Ht Hrest IH]; intros w Hfile.
  - cbn. apply appended_nothing.
  - cbn [loops averaged_rows]. unfold bind at 1. cbn [sense modify].
    unfold bind at 1.
    pose proof (V2_loop_returns cfg (snd (sense t w))) as Hret.
    cbn [sense modify snd] in Hret.
    destruct (Z.eqb_spec (int_add (counter w) 1) (datapoints cfg)) as [Heq|Hne].
    + pose proof (V2_loop_emits cfg t w Havg Heq Hfile Ht) as Hstep.
      cbn [sense modify snd] in Hstep.
      destruct (SolarFinalVer2.loop cfg _) as [[[]|] w1]; [|discriminate].
      cbn [snd] in *. destruct Hstep as (Hc & Htot & Hname & Hclosed & Hrow).
      specialize (IH w1 Hclosed). cbn zeta in IH.
      rewrite Hc, Htot, Hname in IH. cbn [rows_bytes].
      by apply (appended_trans _ (sd_files w1)).
    + pose proof (V2_loop_accumulates cfg t w Havg Hne Hfile) as Hstep.
      cbn [sense modify snd] in Hstep.
      destruct (SolarFinalVer2.loop cfg _) as [[[]|] w1]; [|discriminate].
      cbn [snd] in *. destruct Hstep as (Hc & Htot & Hname & Hclosed & Hrow).
      specialize (IH w1 Hclosed). cbn zeta in IH.
      rewrite Hc, Htot, Hname in IH.
      rewrite <- (append_nil_l (rows_bytes _)).
      by apply (appended_trans _ (sd_files w1)).
Qed.

(** One row per [N] samples. *)

Lemma averaged_rows_length (N : Z) (ticks : list (Tick F)) :
  1 ≤ N ≤ 32767 → ∀ (total : F) (c : Z), 0 ≤ c < N →
  Z.of_nat (length (averaged_rows N total c ticks))
  = (c + Z.of_nat (length ticks)) / N.
Proof.
  intros HN. induction ticks as [|t rest IH]; intros total c Hc.
  - cbn. rewrite Z.add_0_r, Z.div_small by lia. reflexivity.
  - cbn [averaged_rows].
    assert (Hadd : int_add c 1 = c + 1) by (unfold int_add, wrap_int; lia).
    rewrite Hadd, (length_cons t rest), (Nat2Z.inj_succ (length rest)).
    destruct (Z.eqb_spec (c + 1) N) as [Heq|Hne].
    + rewrite length_cons, Nat2Z.inj_succ, IH by lia.
      replace (c + Z.succ (Z.of_nat (length rest)))
        with (Z.of_nat (length rest) + 1 * N) by lia.
      rewrite Z.div_add, Z.add_0_l by lia. symmetry. apply Z.add_1_r.
    + rewrite IH by lia. f_equal. lia.
Qed.

(** A whole run in averaging mode, with everything plugged in throughout:
    the dated file gains, after what [setup] left in it, the rows of
    [averaged_rows] started from a total of zero, one per [datapoints]
    samples. *)

Lemma V2_run_averaged (cfg : Config) (b : Boot F)
  (files : gmap string string) (ticks : list (Tick F)) :
  averaged cfg = true → 1 ≤ datapoints cfg ≤ 32767 →
  boot_rtc_ok b = true → boot_sd_ok b = true → boot_ina_ok b = true →
  Forall (λ t, tick_sd_ok t = true) ticks →
  let started := snd (SolarFinalVer2.setup cfg (power_on b files)) in
  let final := snd (SolarFinalVer2.run cfg ticks (power_on b files)) in
  let dated := string_of_list_ascii (filename started) in
  let rows := averaged_rows (datapoints cfg) f_zero 0 ticks in
  content (sd_files final) dated
  = content (sd_files started) dated +:+ rows_bytes rows
  ∧ Z.of_nat (length rows) = Z.of_nat (length ticks) / datapoints cfg.
Proof.
  intros Havg HN Hrtc Hsd Hina Hticks started final dated rows. split.
  - unfold final, SolarFinalVer2.run.
    rewrite sketch_ret by (exec_setup; reflexivity). fold started.
    assert (Hstart : file started = None ∧ counter started = 0
                     ∧ averagedcurrent_mA started = f_zero)
      by (unfold started; repeat split; exec_setup; reflexivity).
    destruct Hstart as (Hfile & Hcounter & Htotal).
    pose proof (V2_loops_averaged cfg ticks Havg Hticks started Hfile dated)
      as Hrows.
    rewrite Hcounter, Htotal in Hrows. fold dated in Hrows.
    by rewrite Hrows, decide_True.
  - unfold rows. rewrite averaged_rows_length by lia. by rewrite Z.add_0_l.
Qed.

End Averaging.

(** C1. In averaging mode the second row is not the mean of the second
    group of samples.  With [datapoints = 2] and the samples 1, 3, 1 and
    3 mA, SolarFinalVer2 stores one row per two samples, the first with
    the mean 2.00 of the first two; the second row holds 4.00, the sum of
    all four samples divided by two, where the mean of the third and
    fourth sample is 2.00: [averagedcurrent_mA] is not set back to zero
    after a row is stored. *)
Theorem C1_second_average_is_not_the_mean :
  let final :=
    snd (SolarFinalVer2.run (bench_config 5 true 2) four_samples
           (power_on bench_boot ∅)) in
  content (sd_files final) "20240509.csv"
  = header_line
    +:+ row_bytes (mkDateTime 2024 5 9 9 5 2) (mean [1; 3]%Q)
    +:+ row_bytes (mkDateTime 2024 5 9 9 5 4) 4%Q
  ∧ mean [1; 3]%Q = 2%Q
  ∧ row_bytes (mkDateTime 2024 5 9 9 5 4) 4%Q
    ≠ row_bytes (mkDateTime 2024 5 9 9 5 4) (mean [1; 3]%Q).
Proof. vm_compute. repeat split. discriminate. Qed.

(** C2. After the row of the first two samples is stored, [counter] is
    back at zero but the running total is not: it still holds the 4 mA of
    the two samples, and the next group starts from there. *)
Theorem C2_total_not_reset_after_row :
  let after :=
    snd (SolarFinalVer2.run (bench_config 5 true 2) (take 2 four_samples)
           (power_on bench_boot ∅)) in
  content (sd_files after) "20240509.csv"
  = header_line +:+ row_bytes (mkDateTime 2024 5 9 9 5 2) 2%Q
  ∧ counter after = 0
  ∧ averagedcurrent_mA after = 4%Q
  ∧ ¬ (averagedcurrent_mA after == 0)%Q.
Proof. vm_compute. repeat split. discriminate. Qed.

(** * Beyond the claims *)

(** ** Startup, all cases *)

Ltac all_boots b :=
  destruct b as [ina_present mA rtc_present rtc_runs clock sd_present];
  destruct ina_present, rtc_present, rtc_runs, sd_present;
  cbn [andb negb boot_ina_ok boot_mA boot_rtc_ok boot_rtc_running boot_clock
       boot_sd_ok].

Section StartupCases.
Context {F : Type} `{FloatOps F}.

(** X1. [setup] of SolarFinalVer2 returns exactly when clock, card and
    sensor are present (a clock that is not running does not stop it);
    [setup] of solardatalog returns exactly when sensor, clock and card
    are present and the clock is running.  In every other case it ends in
    a spin loop. *)
Theorem X1_setup_returns_iff (cfg : Config) (b : Boot F)
  (files : gmap string string) :
  (fst (SolarFinalVer2.setup cfg (power_on b files)) = Ret tt
   ↔ boot_rtc_ok b = true ∧ boot_sd_ok b = true ∧ boot_ina_ok b = true)
  ∧ (fst (solardatalog.setup cfg (power_on b files)) = Ret tt
     ↔ boot_ina_ok b = true ∧ boot_rtc_ok b = true
       ∧ boot_rtc_running b = true ∧ boot_sd_ok b = true).
Proof.
  split; all_boots b; exec_setup; split; intros Hcase;
    repeat match goal with Hand : _ ∧ _ |- _ => destruct Hand end;
    repeat split; congruence.
Qed.

(** X2. Over a whole run the clock is adjusted, once and to the build
    time, exactly when it is present and not running (and, in
    solardatalog, the sensor passed its check before); a running clock
    and an absent clock are never adjusted. *)
Theorem X2_clock_adjusted_iff (cfg : Config) (b : Boot F)
  (files : gmap string string) (ticks : list (Tick F)) :
  adjustments (trace (snd (SolarFinalVer2.run cfg ticks (power_on b files))))
  = (if boot_rtc_ok b && negb (boot_rtc_running b)
     then [build_time cfg] else [])
  ∧ adjustments (trace (snd (solardatalog.run cfg ticks (power_on b files))))
    = (if boot_ina_ok b && boot_rtc_ok b && negb (boot_rtc_running b)
       then [build_time cfg] else []).
Proof.
  split.
  - unfold SolarFinalVer2.run.
    apply (sketch_invariant (λ w, adjustments (trace w) = _)).
    + all_boots b; exec_setup; reflexivity.
    + intros t w Hw. by rewrite V2_loop_adjustments.
  - unfold solardatalog.run.
    apply (sketch_invariant (λ w, adjustments (trace w) = _)).
    + all_boots b; exec_setup; reflexivity.
    + intros t w Hw. by rewrite datalog_loop_adjustments.
Qed.

(** X3. When the clock or the card is absent at startup, both sketches
    hang in [setup] and the card is exactly as it was: no file is created
    or changed.  The error lines on the serial line are those of the
    checks that ran, in the order of the sketch.  SolarFinalVer2 reports
    an absent clock and nothing else; with the clock present it reports
    the absent card, after the lost-power line when the clock was not
    running.  solardatalog reports one error, that of its first failing
    check: the sensor's when the sensor is absent, else the clock's when
    the clock is absent, else the lost-power line when the clock is not
    running, else the card's. *)
Theorem X3_clock_or_card_absent (cfg : Config) (b : Boot F)
  (files : gmap string string) (ticks : list (Tick F)) :
  boot_rtc_ok b = false ∨ boot_sd_ok b = false →
  let v2 := SolarFinalVer2.run cfg ticks (power_on b files) in
  let dl := solardatalog.run cfg ticks (power_on b files) in
  let no_sensor := "Error : INA219 not connected!" +:+ crlf in
  let no_clock := "Error : RTC not detected!" +:+ crlf in
  let lost_power := "Error : RTC lost power!" +:+ crlf in
  let no_card := "Error : SD card not detected!" +:+ crlf in
  (fst v2 = Hang ∧ sd_files (snd v2) = files
   ∧ errors (trace (snd v2))
     = (if boot_rtc_ok b
        then (if boot_rtc_running b then [] else [lost_power]) ++ [no_card]
        else [no_clock]))
  ∧ (fst dl = Hang ∧ sd_files (snd dl) = files
     ∧ errors (trace (snd dl))
       = [if negb (boot_ina_ok b) then no_sensor
          else if negb (boot_rtc_ok b) then no_clock
          else if negb (boot_rtc_running b) then lost_power
          else no_card]).
Proof.
  intros Hfault v2 dl no_sensor no_clock lost_power no_card.
  assert (Hv2 : fst (SolarFinalVer2.setup cfg (power_on b files)) = Hang).
  { all_boots b; destruct Hfault; try discriminate; exec_setup; reflexivity. }
  assert (Hdl : fst (solardatalog.setup cfg (power_on b files)) = Hang).
  { all_boots b; destruct Hfault; try discriminate; exec_setup; reflexivity. }
  unfold v2, dl, no_sensor, no_clock, lost_power, no_card,
    SolarFinalVer2.run, solardatalog.run.
  rewrite !sketch_hang by done. cbn [fst snd]. clear Hv2 Hdl.
  split; (split; [done|]); split.
  - all_boots b; destruct Hfault; try discriminate; exec_setup; reflexivity.
  - all_boots b; destruct Hfault; try discriminate; exec_setup; reflexivity.
  - all_boots b; destruct Hfault; try discriminate; exec_setup; reflexivity.
  - all_boots b; destruct Hfault; try discriminate; exec_setup; reflexivity.
Qed.

(** X4. solardatalog touches the card only after every startup check has
    passed: whenever its [setup] hangs, for whatever fault, the files are
    exactly those found at power-on, however long the board stays on. *)
Theorem X4_datalog_fault_leaves_card (cfg : Config) (b : Boot F)
  (files : gmap string string) (ticks : list (Tick F)) :
  fst (solardatalog.setup cfg (power_on b files)) = Hang →
  fst (solardatalog.run cfg ticks (power_on b files)) = Hang
  ∧ sd_files (snd (solardatalog.run cfg ticks (power_on b files))) = files.
Proof.
  intros Hhang. unfold solardatalog.run.
  rewrite sketch_hang by done. cbn [fst snd]. split; [done|].
  revert Hhang. all_boots b; exec_setup; intros Hhang;
    try reflexivity; discriminate.
Qed.

End StartupCases.

Lemma X3_clock_or_card_absent_witness :
  sd_files (snd (SolarFinalVer2.run (bench_config 5 false 10) [bench_tick 5 1%Q]
                   (power_on (mkBoot true 0%Q true true bench_build false) ∅)))
  = ∅
  ∧ errors
      (trace (snd (solardatalog.run (bench_config 20 false 10)
                     [bench_tick 20 1%Q]
                     (power_on (mkBoot false 0%Q false true bench_build true)
                        ∅))))
    = ["Error : INA219 not connected!" +:+ crlf].
Proof.
  pose proof (X3_clock_or_card_absent (bench_config 5 false 10)
                (mkBoot true 0%Q true true bench_build false) ∅
                [bench_tick 5 1%Q] (or_intror eq_refl)) as [[_ [Hv2 _]] _].
  pose proof (X3_clock_or_card_absent (bench_config 20 false 10)
                (mkBoot false 0%Q false true bench_build true) ∅
                [bench_tick 20 1%Q] (or_introl eq_refl)) as [_ [_ [_ Hdl]]].
  split; [exact Hv2|exact Hdl].
Defined.

Lemma X4_datalog_fault_witness :
  sd_files
    (snd (solardatalog.run (bench_config 20 false 10) [bench_tick 20 1%Q]
            (power_on (mkBoot true 0%Q true false bench_build true) ∅)))
  = ∅.
Proof.
  pose proof (X4_datalog_fault_leaves_card (bench_config 20 false 10)
                (mkBoot true 0%Q true false bench_build true) ∅
                [bench_tick 20 1%Q] eq_refl) as [_ Hfiles].
  exact Hfiles.
Defined.

(** ** The Logger Cycle over many iterations *)

Ltac row_appended :=
  rewrite ?content_insert_eq, ?insert_insert_eq;
  apply appended_insert; unfold row_bytes;
  by rewrite timestamp_pretty, ?append_assoc.

Section ManyIterations.
Context {F : Type} `{FloatOps F}.

Lemma loops_cons (loop : M F unit) (t : Tick F) (rest : list (Tick F))
  (w : World F) :
  loops loop (t :: rest) w
  = match loop (snd (sense t w)) with
    | (Ret _, w1) => loops loop rest w1
    | (Hang, w1) => (Hang, w1)
    end.
Proof. reflexivity. Qed.

Lemma loops_app (loop : M F unit) (a b : list (Tick F)) (w : World F) :
  loops loop (a ++ b) w
  = match loops loop a w with
    | (Ret _, w1) => loops loop b w1
    | (Hang, w1) => (Hang, w1)
    end.
Proof.
  revert w. induction a as [|t a IH]; intros w; [reflexivity|].
  rewrite <- app_comm_cons, !loops_cons.
  destruct (loop _) as [[[]|] w1]; [apply IH|reflexivity].
Qed.

(** Iterations that each return and append their row to the dated file
    append all the rows in order, and return. *)

Lemma loops_appended (loop : M F unit) (P : Tick F → Prop)
  (row : Tick F → DateTime * F) :
  (∀ t w, P t → file w = None →
     fst (loop (snd (sense t w))) = Ret tt
     ∧ filename (snd (loop (snd (sense t w)))) = filename w
     ∧ file (snd (loop (snd (sense t w)))) = None
     ∧ appended (sd_files w) (sd_files (snd (loop (snd (sense t w)))))
         (string_of_list_ascii (filename w))
         (row_bytes (fst (row t)) (snd (row t)))) →
  ∀ ticks, Forall P ticks → ∀ w, file w = None →
    fst (loops loop ticks w) = Ret tt
    ∧ filename (snd (loops loop ticks w)) = filename w
    ∧ file (snd (loops loop ticks w)) = None
    ∧ appended (sd_files w) (sd_files (snd (loops loop ticks w)))
        (string_of_list_ascii (filename w)) (rows_bytes (map row ticks)).
Proof.
  intros Hstep ticks Hticks.
  induction Hticks as [|t rest Ht Hrest IH]; intros w Hfile.
  - cbn. repeat split; [done|]. apply appended_nothing.
  - rewrite loops_cons. cbn [map rows_bytes].
    destruct (Hstep t w Ht Hfile) as (Hret & Hname & Hclosed & Hrow).
    destruct (loop _) as [[[]|] w1]; [|discriminate]. cbn [fst snd] in *.
    destruct (IH w1 Hclosed) as (Hret' & Hname' & Hclosed' & Hrows).
    rewrite Hname in Hname', Hrows.
    repeat split; try done.
    destruct (row t) as [now v]. cbn [fst snd] in *.
    by apply (appended_trans _ (sd_files w1)).
Qed.

Lemma V2_loop_raw (cfg : Config) (t : Tick F) (w : World F) :
  averaged cfg = false → tick_sd_ok t = true → file w = None →
  fst (SolarFinalVer2.loop cfg (snd (sense t w))) = Ret tt
  ∧ filename (snd (SolarFinalVer2.loop cfg (snd (sense t w)))) = filename w
  ∧ file (snd (SolarFinalVer2.loop cfg (snd (sense t w)))) = None
  ∧ appended (sd_files w)
      (sd_files (snd (SolarFinalVer2.loop cfg (snd (sense t w)))))
      (string_of_list_ascii (filename w))
      (row_bytes (tick_clock t) (tick_mA t)).
Proof.
  intros Havg Hsd Hfile. exec_loop. repeat split. row_appended.
Qed.

Lemma datalog_loop_raw (cfg : Config) (t : Tick F) (w : World F) :
  tick_ok t = true → file w = None →
  fst (solardatalog.loop cfg (snd (sense t w))) = Ret tt
  ∧ filename (snd (solardatalog.loop cfg (snd (sense t w)))) = filename w
  ∧ file (snd (solardatalog.loop cfg (snd (sense t w)))) = None
  ∧ appended (sd_files w)
      (sd_files (snd (solardatalog.loop cfg (snd (sense t w)))))
      (string_of_list_ascii (filename w))
      (row_bytes (tick_clock t) (tick_mA t)).
Proof.
  unfold tick_ok. intros Hok Hfile.
  apply andb_true_iff in Hok. destruct Hok as [Hina Hsd].
  exec_loop. repeat split. row_appended.
Qed.

Lemma led_app (tr evs : list Event) :
  led (tr ++ evs)
  = match led evs with Some level => Some level | None => led tr end.
Proof.
  unfold led.
  assert (Happ : led_writes (tr ++ evs) = led_writes tr ++ led_writes evs).
  { induction tr as [|e tr IH]; [reflexivity|].
    destruct e; cbn; by rewrite ?IH. }
  rewrite Happ. apply last_app.
Qed.

(** An iteration of solardatalog that finds the sensor or the card gone
    hangs with the card as it was and the LED lit. *)

Lemma datalog_loop_fault (cfg : Config) (t : Tick F) (w : World F) :
  tick_ok t = false →
  fst (solardatalog.loop cfg (snd (sense t w))) = Hang
  ∧ sd_files (snd (solardatalog.loop cfg (snd (sense t w)))) = sd_files w
  ∧ led (trace (snd (solardatalog.loop cfg (snd (sense t w))))) = Some true.
Proof.
  unfold tick_ok. intros Hok. apply andb_false_iff in Hok.
  destruct Hok as [Hina|Hsd]; exec_loop; repeat split;
    rewrite <- ?app_assoc; cbn [app]; by rewrite led_app.
Qed.

Lemma datalog_loops_return_iff (cfg : Config) (ticks : list (Tick F)) :
  ∀ w : World F, file w = None →
  fst (loops (solardatalog.loop cfg) ticks w) = Ret tt
  ↔ Forall (λ t, tick_ok t = true) ticks.
Proof.
  induction ticks as [|t rest IH]; intros w Hfile.
  - split; [constructor|reflexivity].
  - rewrite loops_cons. destruct (tick_ok t) eqn:Hok.
    + destruct (datalog_loop_raw cfg t w Hok Hfile) as (Hret & _ & Hclosed & _).
      destruct (solardatalog.loop cfg _) as [[[]|] w1]; [|discriminate].
      cbn [snd] in Hclosed. rewrite (IH w1 Hclosed). split.
      * intros Hrest. by constructor.
      * intros Hall. by inversion Hall.
    + destruct (datalog_loop_fault cfg t w Hok) as (Hhang & _).
      destruct (solardatalog.loop cfg _) as [[[]|] w1]; [discriminate|].
      split; [discriminate|]. intros Hall. inversion Hall; congruence.
Qed.

(** X5. The Logger Cycle of SolarFinalVer2 has no fault exit: whatever
    happens to sensor, clock and card after [setup], every iteration
    returns, so a run ends as its [setup] ended. *)
Theorem X5_V2_cycle_never_halts (cfg : Config) (b : Boot F)
  (files : gmap string string) (ticks : list (Tick F)) :
  fst (SolarFinalVer2.run cfg ticks (power_on b files))
  = fst (SolarFinalVer2.setup cfg (power_on b files)).
Proof.
  unfold SolarFinalVer2.run.
  destruct (fst (SolarFinalVer2.setup cfg (power_on b files)))
    as [[]|] eqn:Hsetup.
  - rewrite sketch_ret by done. apply loops_return, V2_loop_returns.
  - by rewrite sketch_hang.
Qed.

(** X6. A run of solardatalog gets through all its iterations exactly when
    [setup] returned and every iteration found both the sensor and the
    card in place. *)
Theorem X6_datalog_returns_iff (cfg : Config) (b : Boot F)
  (files : gmap string string) (ticks : list (Tick F)) :
  fst (solardatalog.run cfg ticks (power_on b files)) = Ret tt
  ↔ fst (solardatalog.setup cfg (power_on b files)) = Ret tt
    ∧ Forall (λ t, tick_ok t = true) ticks.
Proof.
  unfold solardatalog.run.
  destruct (fst (solardatalog.setup cfg (power_on b files)))
    as [[]|] eqn:Hsetup.
  - rewrite sketch_ret by done.
    rewrite datalog_loops_return_iff by apply datalog_setup_files.
    split; [by split|by intros [_ Hall]].
  - rewrite sketch_hang by done. cbn [fst].
    split; [discriminate|intros [Hret _]; discriminate].
Qed.

(** X7. When solardatalog loses the sensor or the card in the middle of a
    run, it hangs in that iteration with the LED lit, and the card holds
    what the iterations before the fault left: after the header block of
    [setup], one raw row for each earlier iteration and none for the
    faulty one or any later one. *)
Theorem X7_datalog_fault_stops_logging (cfg : Config) (b : Boot F)
  (files : gmap string string) (good rest : list (Tick F)) (bad : Tick F) :
  fst (solardatalog.setup cfg (power_on b files)) = Ret tt →
  Forall (λ t, tick_ok t = true) good → tick_ok bad = false →
  let started := snd (solardatalog.setup cfg (power_on b files)) in
  let dated := string_of_list_ascii (filename started) in
  let final :=
    snd (solardatalog.run cfg (good ++ bad :: rest) (power_on b files)) in
  fst (solardatalog.run cfg (good ++ bad :: rest) (power_on b files)) = Hang
  ∧ led (trace final) = Some true
  ∧ sd_files final
    = sd_files (snd (solardatalog.run cfg good (power_on b files)))
  ∧ content (sd_files final) dated
    = content (sd_files started) dated +:+ rows_bytes (raw_rows good).
Proof.
  intros Hsetup Hgood Hbad started dated final.
  unfold final, solardatalog.run. rewrite !sketch_ret by done. fold started.
  assert (Hclosed : file started = None) by apply datalog_setup_files.
  destruct (loops_appended (solardatalog.loop cfg) (λ t, tick_ok t = true)
              (λ t, (tick_clock t, tick_mA t))
              (λ t w, datalog_loop_raw cfg t w) good Hgood started Hclosed)
    as (Hret & _ & _ & Hrows).
  rewrite loops_app.
  destruct (loops (solardatalog.loop cfg) good started) as [[[]|] w1];
    [|discriminate].
  cbn [fst snd] in *. rewrite loops_cons.
  destruct (datalog_loop_fault cfg bad w1 Hbad) as (Hhang & Hfiles & Hled).
  destruct (solardatalog.loop cfg _) as [[[]|] w2]; [discriminate|].
  cbn [fst snd] in *. repeat split; try done.
  rewrite Hfiles, (Hrows dated). by rewrite decide_True.
Qed.

(** X8. Without averaging every sample is stored as it is read.  In
    SolarFinalVer2 with [averaged = false], and in solardatalog, a run
    whose [setup] returned and whose iterations all found the card (and,
    for solardatalog, the sensor) returns, and the dated file holds, after
    what [setup] left in it, one row per iteration in order, each with the
    clock time and the sensor reading of its iteration. *)
Theorem X8_every_sample_stored_raw (cfg : Config) (b : Boot F)
  (files : gmap string string) (ticks : list (Tick F)) :
  averaged cfg = false →
  (fst (SolarFinalVer2.setup cfg (power_on b files)) = Ret tt →
   Forall (λ t, tick_sd_ok t = true) ticks →
   let started := snd (SolarFinalVer2.setup cfg (power_on b files)) in
   let dated := string_of_list_ascii (filename started) in
   let final := snd (SolarFinalVer2.run cfg ticks (power_on b files)) in
   content (sd_files final) dated
   = content (sd_files started) dated +:+ rows_bytes (raw_rows ticks))
  ∧ (fst (solardatalog.setup cfg (power_on b files)) = Ret tt →
     Forall (λ t, tick_ok t = true) ticks →
     let started := snd (solardatalog.setup cfg (power_on b files)) in
     let dated := string_of_list_ascii (filename started) in
     let final := snd (solardatalog.run cfg ticks (power_on b files)) in
     content (sd_files final) dated
     = content (sd_files started) dated +:+ rows_bytes (raw_rows ticks)).
Proof.
  intros Havg. split; intros Hsetup Hticks started dated final.
  - unfold final, SolarFinalVer2.run. rewrite sketch_ret by done. fold started.
    assert (Hclosed : file started = None) by apply V2_setup_files.
    destruct (loops_appended (SolarFinalVer2.loop cfg)
                (λ t, tick_sd_ok t = true) (λ t, (tick_clock t, tick_mA t))
                (λ t w, V2_loop_raw cfg t w Havg) ticks Hticks started Hclosed)
      as (_ & _ & _ & Hrows).
    rewrite (Hrows dated). by rewrite decide_True.
  - unfold final, solardatalog.run. rewrite sketch_ret by done. fold started.
    assert (Hclosed : file started = None) by apply datalog_setup_files.
    destruct (loops_appended (solardatalog.loop cfg)
                (λ t, tick_ok t = true) (λ t, (tick_clock t, tick_mA t))
                (λ t w, datalog_loop_raw cfg t w) ticks Hticks started Hclosed)
      as (_ & _ & _ & Hrows).
    rewrite (Hrows dated). by rewrite decide_True.
Qed.

End ManyIterations.

(** ** Averaging over a whole run *)

Section AveragedRun.
Context {F : Type} `{FloatOps F}.

Lemma total_of_cons (total : F) (t : Tick F) (rest : list (Tick F)) :
  total_of total (t :: rest) = total_of (f_add total (tick_mA t)) rest.
Proof. reflexivity. Qed.

(** The row number [k] of [averaged_rows], counted from zero, is stored at
    the sample that completes group [k] and holds the total of all the
    samples up to that one, not only those of its group. *)


(** What an iteration in averaging mode does to the two globals, card or
    no card. *)

Lemma V2_loop_state (cfg : Config) (t : Tick F) (w : World F) :
  averaged cfg = true →
  counter (snd (SolarFinalVer2.loop cfg (snd (sense t w))))
  = (if int_add (counter w) 1 =? datapoints cfg then 0
     else int_add (counter w) 1)
  ∧ averagedcurrent_mA (snd (SolarFinalVer2.loop cfg (snd (sense t w))))
    = f_add (averagedcurrent_mA w) (tick_mA t).
Proof. intros Havg. split; exec_loop; reflexivity. Qed.

Lemma V2_loops_state (cfg : Config) (ticks : list (Tick F)) :
  averaged cfg = true → 1 ≤ datapoints cfg ≤ 32767 →
  ∀ w : World F, 0 ≤ counter w < datapoints cfg →
  counter (snd (loops (SolarFinalVer2.loop cfg) ticks w))
  = (counter w + Z.of_nat (length ticks)) mod datapoints cfg
  ∧ averagedcurrent_mA (snd (loops (SolarFinalVer2.loop cfg) ticks w))
    = total_of (averagedcurrent_mA w) ticks.
Proof.
  intros Havg HN. induction ticks as [|t rest IH]; intros w Hc.
  - cbn. rewrite Z.add_0_r, Z.mod_small by lia. by split.
  - rewrite loops_cons, total_of_cons.
    pose proof (V2_loop_returns cfg (snd (sense t w))) as Hret.
    destruct (V2_loop_state cfg t w Havg) as [Hcount Htotal].
    destruct (SolarFinalVer2.loop cfg _) as [[[]|] w1]; [|discriminate].
    cbn [snd] in *.
    assert (Hadd : int_add (counter w) 1 = counter w + 1)
      by (unfold int_add, wrap_int; lia).
    rewrite Hadd in Hcount.
    assert (Hstep : 0 ≤ counter w1 < datapoints cfg
                    ∧ (counter w1 + Z.of_nat (length rest)) mod datapoints cfg
                      = (counter w + Z.of_nat (length (t :: rest)))
                        mod datapoints cfg).
    { rewrite length_cons, Nat2Z.inj_succ.
      destruct (Z.eqb_spec (counter w + 1) (datapoints cfg)) as [Heq|Hne];
        rewrite Hcount; (split; [lia|]).
      - replace (counter w + Z.succ (Z.of_nat (length rest)))
          with (0 + Z.of_nat (length rest) + 1 * datapoints cfg) by lia.
        by rewrite Z.mod_add by lia.
      - f_equal. lia. }
    destruct Hstep as [Hc1 Hmod].
    destruct (IH w1 Hc1) as [IHc IHt].
    rewrite IHc, IHt, Hmod, Htotal. by split.
Qed.

(** X9. In averaging mode, with everything plugged in throughout, a run of
    SolarFinalVer2 over [n] samples appends [n / datapoints] rows to the
    dated file, rounded down, after what [setup] left in it, and nothing
    else. *)
Theorem X9_one_row_per_datapoints (cfg : Config) (b : Boot F)
  (files : gmap string string) (ticks : list (Tick F)) :
  averaged cfg = true → 1 ≤ datapoints cfg ≤ 32767 →
  boot_rtc_ok b = true → boot_sd_ok b = true → boot_ina_ok b = true →
  Forall (λ t, tick_sd_ok t = true) ticks →
  let started := snd (SolarFinalVer2.setup cfg (power_on b files)) in
  let final := snd (SolarFinalVer2.run cfg ticks (power_on b files)) in
  let dated := string_of_list_ascii (filename started) in
  ∃ rows : list (DateTime * F),
    content (sd_files final) dated
    = content (sd_files started) dated +:+ rows_bytes rows
    ∧ Z.of_nat (length rows) = Z.of_nat (length ticks) / datapoints cfg.
Proof.
  intros Havg HN Hrtc Hsd Hina Hticks started final dated.
  exists (averaged_rows (datapoints cfg) f_zero 0 ticks).
  by apply V2_run_averaged.
Qed.


(** X11. In averaging mode, after [setup] returned, [counter] is the
    number of samples taken so far modulo [datapoints], and
    [averagedcurrent_mA] is the sum of all of them: storing a row sets the
    counter back and leaves the total. *)
Theorem X11_counter_wraps_total_grows (cfg : Config) (b : Boot F)
  (files : gmap string string) (ticks : list (Tick F)) :
  averaged cfg = true → 1 ≤ datapoints cfg ≤ 32767 →
  fst (SolarFinalVer2.setup cfg (power_on b files)) = Ret tt →
  let final := snd (SolarFinalVer2.run cfg ticks (power_on b files)) in
  counter final = Z.of_nat (length ticks) mod datapoints cfg
  ∧ averagedcurrent_mA final = total_of f_zero ticks.
Proof.
  intros Havg HN Hsetup final.
  unfold final, SolarFinalVer2.run. rewrite sketch_ret by done.
  assert (Hstart : counter (snd (SolarFinalVer2.setup cfg (power_on b files))) = 0
                   ∧ averagedcurrent_mA
                       (snd (SolarFinalVer2.setup cfg (power_on b files)))
                     = f_zero)
    by (split; exec_setup; reflexivity).
  destruct Hstart as [Hcounter Htotal].
  destruct (V2_loops_state cfg ticks Havg HN
              (snd (SolarFinalVer2.setup cfg (power_on b files)))
              ltac:(rewrite Hcounter; lia)) as [Hc Ht].
  rewrite Hc, Ht, Hcounter, Htotal. by rewrite Z.add_0_l.
Qed.

End AveragedRun.

(** ** What a run never does to the card *)

Ltac still_there :=
  repeat (rewrite lookup_insert_is_Some'; right); assumption.

Section Kept.
Context {F : Type} `{FloatOps F}.

Lemma grown_prefix (c0 c : string) :
  grown c0 c → ∃ suffix, c = c0 +:+ suffix.
Proof.
  intros [->|[rows ->]].
  - exists "". by rewrite append_nil_r.
  - unfold head_of. case_decide as Hempty.
    + exists (header_line +:+ rows_bytes rows). by rewrite Hempty.
    + by exists (rows_bytes rows).
Qed.

Lemma V2_setup_keeps_files (cfg : Config) (b : Boot F)
  (files : gmap string string) (name : string) :
  is_Some (files !! name) →
  is_Some (sd_files (snd (SolarFinalVer2.setup cfg (power_on b files))) !! name).
Proof. intros Hthere. exec_setup; still_there. Qed.

Lemma datalog_setup_keeps_files (cfg : Config) (b : Boot F)
  (files : gmap string string) (name : string) :
  is_Some (files !! name) →
  is_Some (sd_files (snd (solardatalog.setup cfg (power_on b files))) !! name).
Proof. intros Hthere. exec_setup; still_there. Qed.

Lemma V2_loop_keeps_files (cfg : Config) (name : string) (t : Tick F)
  (w : World F) :
  is_Some (sd_files w !! name) →
  is_Some (sd_files (snd (SolarFinalVer2.loop cfg (snd (sense t w)))) !! name).
Proof. intros Hthere. exec_loop; still_there. Qed.

Lemma datalog_loop_keeps_files (cfg : Config) (name : string) (t : Tick F)
  (w : World F) :
  is_Some (sd_files w !! name) →
  is_Some (sd_files (snd (solardatalog.loop cfg (snd (sense t w)))) !! name).
Proof. intros Hthere. exec_loop; still_there. Qed.

Lemma sessions_keep_files (run : list (Tick F) → M F unit)
  (sessions : list (Session F)) (name : string) :
  (∀ b files ticks, is_Some (files !! name) →
     is_Some (sd_files (snd (run ticks (power_on b files))) !! name)) →
  ∀ files, is_Some (files !! name) →
           is_Some (run_sessions run sessions files !! name).
Proof.
  intros Hrun. induction sessions as [|[b ticks] rest IH]; intros files Hthere.
  - exact Hthere.
  - cbn [run_sessions foldl fst snd]. apply IH. by apply Hrun.
Qed.

(** X12. Neither sketch ever deletes a file or changes bytes that are
    already on the card: over any sequence of power cycles, every file
    that existed still exists and its old content is a prefix of its new
    content. *)
Theorem X12_files_only_grow (cfg : Config) (sessions : list (Session F))
  (files : gmap string string) (name : string) :
  let v2 := run_sessions (SolarFinalVer2.run cfg) sessions files in
  let dl := run_sessions (solardatalog.run cfg) sessions files in
  (∃ suffix, content v2 name = content files name +:+ suffix)
  ∧ (∃ suffix, content dl name = content files name +:+ suffix)
  ∧ (is_Some (files !! name) → is_Some (v2 !! name) ∧ is_Some (dl !! name)).
Proof.
  intros v2 dl. split; [|split].
  - apply grown_prefix, sessions_grown. intros. apply V2_run_grown.
  - apply grown_prefix, sessions_grown. intros. apply datalog_run_grown.
  - intros Hthere. split.
    + apply sessions_keep_files; [|done]. intros b fs ticks Hfs.
      unfold SolarFinalVer2.run.
      apply (sketch_invariant (λ w, is_Some (sd_files w !! name))).
      * by apply V2_setup_keeps_files.
      * intros t w. apply V2_loop_keeps_files.
    + apply sessions_keep_files; [|done]. intros b fs ticks Hfs.
      unfold solardatalog.run.
      apply (sketch_invariant (λ w, is_Some (sd_files w !! name))).
      * by apply datalog_setup_keeps_files.
      * intros t w. apply datalog_loop_keeps_files.
Qed.

Lemma run_one_file (setup loop : M F unit) (b : Boot F)
  (files : gmap string string) (ticks : list (Tick F)) :
  let started := snd (setup (power_on b files)) in
  let dated := string_of_list_ascii (filename started) in
  let final := snd (sketch setup loop ticks (power_on b files)) in
  file started = None →
  (appended files (sd_files started) dated ""
   ∨ content files dated = ""
     ∧ appended files (sd_files started) dated header_line) →
  (∀ t w, file w = None → row_or_nothing w (snd (loop (snd (sense t w))))) →
  filename final = filename started
  ∧ ∀ name, name ≠ dated → content (sd_files final) name = content files name.
Proof.
  intros started dated final Hclosed Hfiles Hloop.
  assert (Hstart : ∀ name, name ≠ dated →
            content (sd_files started) name = content files name).
  { intros name Hne.
    destruct Hfiles as [Hsame|[_ Hhead]];
      [rewrite (Hsame name)|rewrite (Hhead name)]; by rewrite decide_False. }
  pose proof (sketch_invariant
    (λ w, file w = None ∧ filename w = filename started
          ∧ ∀ name, name ≠ dated →
              content (sd_files w) name = content files name)
    setup loop ticks (power_on b files)) as Hinv.
  destruct Hinv as (_ & Hname & Hothers); [by repeat split| |by split].
  intros t w (Hf & Hn & Ho).
  destruct (Hloop t w Hf) as (Hn' & Hf' & rows & Hrows).
  split; [done|]. split; [congruence|].
  intros name Hne. rewrite (Hrows name), Hn.
  rewrite decide_False by done. by apply Ho.
Qed.

(** X13. The file name is fixed by [setup] for the whole run: every
    iteration, whatever date its clock reading has, leaves [filename] as
    it is, and a run changes no file other than the one of that name. *)
Theorem X13_one_file_per_run (cfg : Config) (b : Boot F)
  (files : gmap string string) (ticks : list (Tick F)) :
  (let started := snd (SolarFinalVer2.setup cfg (power_on b files)) in
   let final := snd (SolarFinalVer2.run cfg ticks (power_on b files)) in
   filename final = filename started
   ∧ ∀ name, name ≠ string_of_list_ascii (filename started) →
       content (sd_files final) name = content files name)
  ∧ (let started := snd (solardatalog.setup cfg (power_on b files)) in
     let final := snd (solardatalog.run cfg ticks (power_on b files)) in
     filename final = filename started
     ∧ ∀ name, name ≠ string_of_list_ascii (filename started) →
         content (sd_files final) name = content files name).
Proof.
  split.
  - apply run_one_file.
    + apply V2_setup_files.
    + apply V2_setup_files.
    + intros t w. apply V2_loop_row_or_nothing.
  - apply run_one_file.
    + apply datalog_setup_files.
    + apply datalog_setup_files.
    + intros t w. apply datalog_loop_row_or_nothing.
Qed.

End Kept.

(** ** The LED, a lost card, short intervals *)

Section Indicator.
Context {F : Type} `{FloatOps F}.

Lemma datalog_loops_hang_led (cfg : Config) (ticks : list (Tick F)) :
  ∀ w : World F, file w = None →
  fst (loops (solardatalog.loop cfg) ticks w) = Hang →
  led (trace (snd (loops (solardatalog.loop cfg) ticks w))) = Some true.
Proof.
  induction ticks as [|t rest IH]; intros w Hfile; [discriminate|].
  rewrite loops_cons. destruct (tick_ok t) eqn:Hok.
  - destruct (datalog_loop_raw cfg t w Hok Hfile) as (Hret & _ & Hclosed & _).
    destruct (solardatalog.loop cfg _) as [[[]|] w1]; [|discriminate].
    by apply IH.
  - destruct (datalog_loop_fault cfg t w Hok) as (Hhang & _ & Hled).
    destruct (solardatalog.loop cfg _) as [[[]|] w1]; [discriminate|].
    by intros _.
Qed.

(** X14. The LED as fault indicator.  Whenever a run of solardatalog ends
    in a spin loop, at startup or in a later iteration, the last level
    written to the LED pin is HIGH.  SolarFinalVer2 can hang only in
    [setup], and by then it has not written to the LED pin at all. *)
Theorem X14_led_on_fault (cfg : Config) (b : Boot F)
  (files : gmap string string) (ticks : list (Tick F)) :
  (fst (solardatalog.run cfg ticks (power_on b files)) = Hang →
   led (trace (snd (solardatalog.run cfg ticks (power_on b files))))
   = Some true)
  ∧ (fst (SolarFinalVer2.run cfg ticks (power_on b files)) = Hang →
     led (trace (snd (SolarFinalVer2.run cfg ticks (power_on b files))))
     = None).
Proof.
  split.
  - unfold solardatalog.run.
    destruct (fst (solardatalog.setup cfg (power_on b files)))
      as [[]|] eqn:Hsetup.
    + rewrite sketch_ret by done.
      apply datalog_loops_hang_led, datalog_setup_files.
    + rewrite sketch_hang by done. cbn [fst snd]. intros _.
      revert Hsetup. all_boots b; exec_setup; intros Hsetup;
        try discriminate; reflexivity.
  - unfold SolarFinalVer2.run.
    destruct (fst (SolarFinalVer2.setup cfg (power_on b files)))
      as [[]|] eqn:Hsetup.
    + rewrite sketch_ret by done.
      rewrite loops_return by apply V2_loop_returns. discriminate.
    + rewrite sketch_hang by done. cbn [fst snd]. intros _.
      all_boots b; exec_setup; reflexivity.
Qed.

(** X18. SolarFinalVer2 does not notice a missing card in the Logger
    Cycle.  An iteration without averaging that finds no card returns as
    usual and reports [Data stored!] on the serial line, but no file on
    the card changes: the sample is lost. *)
Theorem X18_V2_sample_lost_without_card (cfg : Config) (t : Tick F)
  (w : World F) :
  averaged cfg = false → tick_sd_ok t = false → file w = None →
  let w' := snd (SolarFinalVer2.loop cfg (snd (sense t w))) in
  fst (SolarFinalVer2.loop cfg (snd (sense t w))) = Ret tt
  ∧ sd_files w' = sd_files w
  ∧ SerialOut ("Data stored!" +:+ crlf) ∈ drop (length (trace w)) (trace w').
Proof.
  intros Havg Hsd Hfile. exec_loop.
  repeat split. since_start. in_trace.
Qed.

(** X19. Short and odd intervals in solardatalog.  The blinking loop runs
    [frequency / 2] times, rounded down, so with [frequency] at most 1 an
    iteration that passes its checks issues no delay and never writes to
    the LED pin, and with an odd [frequency] it waits
    [(frequency - 1) * 1000] milliseconds. *)
Theorem X19_datalog_short_and_odd_intervals (cfg : Config) (w : World F) :
  ina_ok w = true → sd_ok w = true →
  (frequency cfg ≤ 1 →
   delays (events_of (solardatalog.loop cfg) w) = 0
   ∧ led_writes (events_of (solardatalog.loop cfg) w) = [])
  ∧ (0 < frequency cfg ≤ 32767 → Z.odd (frequency cfg) = true →
     delays (events_of (solardatalog.loop cfg) w)
     = (frequency cfg - 1) * 1000).
Proof.
  intros Hina Hsd. split.
  - intros Hshort.
    assert (Hnone : Z.to_nat (int_div (frequency cfg) 2) = 0%nat).
    { unfold int_div.
      destruct (Z.le_gt_cases 0 (frequency cfg)) as [Hpos|Hneg].
      - rewrite Z.quot_div_nonneg by lia. lia.
      - pose proof (Z.quot_opp_l (- frequency cfg) 2 ltac:(lia)) as Hopp.
        rewrite Z.opp_involutive in Hopp.
        pose proof (Z.quot_pos (- frequency cfg) 2 ltac:(lia) ltac:(lia)).
        lia. }
    unfold solardatalog.loop, solardatalog.ReadData.
    rewrite Hnone. cbn [for_le].
    split; exec; since_start; reflexivity.
  - intros Hf Hodd. by apply datalog_loop_delays_odd.
Qed.

End Indicator.

(** ** Names and timestamps can be read back *)

Lemma digit_char_inj (a b : N) :
  (a < 10)%N → (b < 10)%N → digit_char a = digit_char b → a = b.
Proof.
  intros Ha Hb Heq. apply (f_equal N_of_ascii) in Heq.
  unfold digit_char, to_char in Heq.
  rewrite !N_ascii_embedding in Heq by lia. lia.
Qed.

Lemma four_digits_value (y : N) : (y ≤ 9999)%N →
  y = (1000 * (y / 1000) + 100 * ((y / 100) mod 10)
       + 10 * ((y / 10) mod 10) + y mod 10)%N.
Proof. intros Hy. lia. Qed.

Lemma two_digits_value (n : N) : (n ≤ 99)%N →
  n = (10 * ((n / 10) mod 10) + n mod 10)%N.
Proof. intros Hn. lia. Qed.

(** X16. Two dates share a file name only when they are the same day: for
    years up to 9999 and month and day numbers up to 99, the name that
    [setup] derives determines year, month and day. *)
Theorem X16_filename_determines_date (d d' : DateTime) :
  (year d ≤ 9999)%N → (month d ≤ 99)%N → (day d ≤ 99)%N →
  (year d' ≤ 9999)%N → (month d' ≤ 99)%N → (day d' ≤ 99)%N →
  generate_filename filename_template d
  = generate_filename filename_template d' →
  year d = year d' ∧ month d = month d' ∧ day d = day d'.
Proof.
  intros Hy Hm Hd Hy' Hm' Hd' Hname.
  unfold generate_filename, filename_template in Hname.
  cbn [list_ascii_of_string insert list_insert] in Hname.
  fold (digit_char (year d / 1000)) in Hname.
  fold (digit_char (year d' / 1000)) in Hname.
  repeat match type of Hname with
         | context [to_char (48 + ?x)] => fold (digit_char x) in Hname
         end.
  inversion Hname as [[Hy3 Hy2 Hy1 Hy0 Hm1 Hm0 Hd1 Hd0]]. clear Hname.
  apply digit_char_inj in Hy3; [|lia ..].
  apply digit_char_inj in Hy2; [|apply N.mod_lt; lia ..].
  apply digit_char_inj in Hy1; [|apply N.mod_lt; lia ..].
  apply digit_char_inj in Hy0; [|apply N.mod_lt; lia ..].
  apply digit_char_inj in Hm1; [|apply N.mod_lt; lia ..].
  apply digit_char_inj in Hm0; [|apply N.mod_lt; lia ..].
  apply digit_char_inj in Hd1; [|apply N.mod_lt; lia ..].
  apply digit_char_inj in Hd0; [|apply N.mod_lt; lia ..].
  rewrite (four_digits_value (year d)), (four_digits_value (year d')) by done.
  rewrite (two_digits_value (month d)), (two_digits_value (month d')) by done.
  rewrite (two_digits_value (day d)), (two_digits_value (day d')) by done.
  rewrite Hy3, Hy2, Hy1, Hy0, Hm1, Hm0, Hd1, Hd0. done.
Qed.

Lemma X16_filename_witness :
  year (mkDateTime 2024 5 9 9 5 3) = year (mkDateTime 2024 5 9 23 59 59).
Proof.
  assert (Hy : (2024 ≤ 9999)%N) by lia.
  assert (Hm : (5 ≤ 99)%N) by lia.
  assert (Hd : (9 ≤ 99)%N) by lia.
  pose proof (X16_filename_determines_date (mkDateTime 2024 5 9 9 5 3)
                (mkDateTime 2024 5 9 23 59 59) Hy Hm Hd Hy Hm Hd eq_refl)
    as [Hyear _].
  exact Hyear.
Defined.

Lemma utoa_loop_digits (fuel : nat) : ∀ (n : N) (acc : string),
  all_digits acc → all_digits (utoa_loop fuel n acc).
Proof.
  assert (Hstep : ∀ (n : N) (acc : string), all_digits acc →
            all_digits (String (digit_char (n mod 10)) acc)).
  { intros n acc Hacc. unfold all_digits in *.
    cbn [list_ascii_of_string forallb].
    rewrite digit_char_is_digit by lia. exact Hacc. }
  induction fuel as [|k IH]; intros n acc Hacc; cbn [utoa_loop].
  - by apply Hstep.
  - destruct (n / 10 =? 0)%N; [by apply Hstep|]. by apply IH, Hstep.
Qed.

Lemma pretty_digits (n : N) : all_digits (pretty n).
Proof. rewrite <- utoa_pretty. by apply utoa_loop_digits. Qed.

Lemma split_at_colon (a b x y : string) :
  all_digits a → all_digits b →
  a +:+ String ":" x = b +:+ String ":" y → a = b ∧ x = y.
Proof.
  revert b. induction a as [|c a IH]; intros [|c' b] Ha Hb Heq.
  - by inversion Heq.
  - inversion Heq; subst c'. discriminate Hb.
  - inversion Heq; subst c. discriminate Ha.
  - inversion Heq as [[Hc Hrest]]. subst c'.
    unfold all_digits in Ha, Hb. cbn [list_ascii_of_string forallb] in Ha, Hb.
    apply andb_true_iff in Ha, Hb.
    destruct (IH b (proj2 Ha) (proj2 Hb) Hrest) as [-> ->]. done.
Qed.

(** X17. The time of a row can be read back although it is not padded:
    two clock readings give the same [H:M:S] text only when hour, minute
    and second are the same. *)
Theorem X17_timestamp_determines_time (t t' : DateTime) :
  timestamp t = timestamp t' →
  hour t = hour t' ∧ minute t = minute t' ∧ second t = second t'.
Proof.
  rewrite !timestamp_pretty. intros Heq.
  change (pretty (hour t) +:+ String ":" (pretty (minute t) +:+
            String ":" (pretty (second t)))
          = pretty (hour t') +:+ String ":" (pretty (minute t') +:+
              String ":" (pretty (second t')))) in Heq.
  apply split_at_colon in Heq as [Hh Hrest]; try apply pretty_digits.
  apply split_at_colon in Hrest as [Hm Hs]; try apply pretty_digits.
  repeat split; by apply (inj pretty).
Qed.

Lemma X17_timestamp_witness :
  hour (mkDateTime 2024 5 9 9 5 3) = hour (mkDateTime 2025 1 1 9 5 3).
Proof.
  pose proof (X17_timestamp_determines_time (mkDateTime 2024 5 9 9 5 3)
                (mkDateTime 2025 1 1 9 5 3) eq_refl) as [Hhour _].
  exact Hhour.
Defined.

(** ** The two sketches side by side *)

Section SideBySide.
Context {F : Type} `{FloatOps F}.

(** X15. The name of the session's file.  [setup] derives it from the
    clock reading it takes after the clock check: the date found at
    power-on when the clock was running, the build date when
    SolarFinalVer2 had to set the clock.  When [setup] hangs before that
    point the name is still the initial [YYYYMMDD.csv]. *)
Theorem X15_file_named_after_startup_date (cfg : Config) (b : Boot F)
  (files : gmap string string) :
  filename (snd (SolarFinalVer2.setup cfg (power_on b files)))
  = (if boot_rtc_ok b && boot_sd_ok b
     then generate_filename filename_template
            (if boot_rtc_running b then boot_clock b else build_time cfg)
     else filename_template)
  ∧ filename (snd (solardatalog.setup cfg (power_on b files)))
    = (if boot_ina_ok b && boot_rtc_ok b && boot_rtc_running b && boot_sd_ok b
       then generate_filename filename_template (boot_clock b)
       else filename_template).
Proof. split; all_boots b; exec_setup; reflexivity. Qed.

Lemma setups_agree (cfg : Config) (b : Boot F) (files : gmap string string) :
  boot_ina_ok b = true → boot_rtc_ok b = true →
  boot_rtc_running b = true → boot_sd_ok b = true →
  fst (SolarFinalVer2.setup cfg (power_on b files)) = Ret tt
  ∧ fst (solardatalog.setup cfg (power_on b files)) = Ret tt
  ∧ filename (snd (SolarFinalVer2.setup cfg (power_on b files)))
    = filename (snd (solardatalog.setup cfg (power_on b files)))
  ∧ sd_files (snd (SolarFinalVer2.setup cfg (power_on b files)))
    = sd_files (snd (solardatalog.setup cfg (power_on b files))).
Proof. intros Hina Hrtc Hrun Hsd. repeat split; exec_setup; reflexivity. Qed.

(** X20. With everything plugged in throughout and a running clock,
    SolarFinalVer2 without averaging and solardatalog leave the same bytes
    in every file of the card, given the same readings. *)
Theorem X20_sketches_store_the_same (cfg : Config) (b : Boot F)
  (files : gmap string string) (ticks : list (Tick F)) (name : string) :
  averaged cfg = false →
  boot_ina_ok b = true → boot_rtc_ok b = true →
  boot_rtc_running b = true → boot_sd_ok b = true →
  Forall (λ t, tick_ok t = true) ticks →
  content (sd_files (snd (SolarFinalVer2.run cfg ticks (power_on b files))))
    name
  = content (sd_files (snd (solardatalog.run cfg ticks (power_on b files))))
      name.
Proof.
  intros Havg Hina Hrtc Hrun Hsd Hticks.
  destruct (setups_agree cfg b files Hina Hrtc Hrun Hsd)
    as (Hv2 & Hdl & Hname & Hfiles).
  unfold SolarFinalVer2.run, solardatalog.run. rewrite !sketch_ret by done.
  assert (Hcard : Forall (λ t : Tick F, tick_sd_ok t = true) ticks).
  { eapply Forall_impl; [exact Hticks|]. intros t Hok.
    unfold tick_ok in Hok. by apply andb_true_iff in Hok as [_ Hok]. }
  destruct (loops_appended (SolarFinalVer2.loop cfg)
              (λ t, tick_sd_ok t = true) (λ t, (tick_clock t, tick_mA t))
              (λ t w, V2_loop_raw cfg t w Havg) ticks Hcard
              (snd (SolarFinalVer2.setup cfg (power_on b files)))
              ltac:(apply V2_setup_files)) as (_ & _ & _ & Hrows2).
  destruct (loops_appended (solardatalog.loop cfg)
              (λ t, tick_ok t = true) (λ t, (tick_clock t, tick_mA t))
              (λ t w, datalog_loop_raw cfg t w) ticks Hticks
              (snd (solardatalog.setup cfg (power_on b files)))
              ltac:(apply datalog_setup_files)) as (_ & _ & _ & Hrowsd).
  rewrite (Hrows2 name), (Hrowsd name), Hname, Hfiles. reflexivity.
Qed.

End SideBySide.

Lemma X20_sketches_store_the_same_witness :
  content
    (sd_files (snd (SolarFinalVer2.run (bench_config 5 false 10) four_samples
                      (power_on bench_boot ∅))))
    "20240509.csv"
  = content
      (sd_files (snd (solardatalog.run (bench_config 5 false 10) four_samples
                        (power_on bench_boot ∅))))
      "20240509.csv".
Proof.
  assert (Hticks : Forall (λ t : Tick Q, tick_ok t = true) four_samples)
    by (repeat constructor).
  exact (X20_sketches_store_the_same (bench_config 5 false 10) bench_boot ∅
           four_samples "20240509.csv" eq_refl eq_refl eq_refl eq_refl eq_refl
           Hticks).
Defined.

(** ** The extras on the bench *)

Lemma X7_datalog_fault_witness :
  fst (solardatalog.run (bench_config 20 false 10)
         ([bench_tick 1 1%Q] ++ bench_no_sensor :: [bench_tick 59 3%Q])
         (power_on bench_boot ∅)) = Hang.
Proof.
  assert (Hgood : Forall (λ t : Tick Q, tick_ok t = true) [bench_tick 1 1%Q])
    by (repeat constructor).
  pose proof (X7_datalog_fault_stops_logging (bench_config 20 false 10)
                bench_boot ∅ [bench_tick 1 1%Q] [bench_tick 59 3%Q]
                bench_no_sensor eq_refl Hgood eq_refl) as [Hhang _].
  exact Hhang.
Defined.

Lemma X8_every_sample_witness :
  content
    (sd_files (snd (SolarFinalVer2.run (bench_config 5 false 10) four_samples
                      (power_on bench_boot ∅))))
    "20240509.csv"
  = header_line +:+ rows_bytes (raw_rows four_samples).
Proof.
  assert (Hticks : Forall (λ t : Tick Q, tick_sd_ok t = true) four_samples)
    by (repeat constructor).
  pose proof (X8_every_sample_stored_raw (bench_config 5 false 10)
                bench_boot ∅ four_samples eq_refl) as [Hv2 _].
  exact (Hv2 eq_refl Hticks).
Defined.

Lemma X9_one_row_per_datapoints_witness :
  ∃ rows : list (DateTime * Q),
    content
      (sd_files (snd (SolarFinalVer2.run (bench_config 5 true 2) four_samples
                        (power_on bench_boot ∅))))
      "20240509.csv"
    = header_line +:+ rows_bytes rows
    ∧ Z.of_nat (length rows) = 2.
Proof.
  assert (Hticks : Forall (λ t : Tick Q, tick_sd_ok t = true) four_samples)
    by (repeat constructor).
  assert (HN : 1 ≤ 2 ≤ 32767) by lia.
  destruct (X9_one_row_per_datapoints (bench_config 5 true 2) bench_boot ∅
              four_samples eq_refl HN eq_refl eq_refl eq_refl Hticks)
    as (rows & Hrows & Hcount).
  exists rows. split; [exact Hrows|exact Hcount].
Defined.


Lemma X11_counter_wraps_witness :
  counter (snd (SolarFinalVer2.run (bench_config 5 true 3) four_samples
                  (power_on bench_boot ∅))) = 1.
Proof.
  assert (HN : 1 ≤ 3 ≤ 32767) by lia.
  pose proof (X11_counter_wraps_total_grows (bench_config 5 true 3)
                bench_boot ∅ four_samples eq_refl HN eq_refl) as [Hcounter _].
  exact Hcounter.
Defined.

Lemma X14_led_on_fault_witness :
  led (trace (snd (solardatalog.run (bench_config 20 false 10)
                     [bench_tick 1 1%Q; bench_no_card]
                     (power_on bench_boot ∅))))
  = Some true.
Proof.
  pose proof (X14_led_on_fault (bench_config 20 false 10) bench_boot ∅
                [bench_tick 1 1%Q; bench_no_card]) as [Hled _].
  exact (Hled eq_refl).
Defined.

Lemma X18_sample_lost_witness :
  sd_files
    (snd (SolarFinalVer2.loop (bench_config 5 false 10)
            (snd (sense bench_no_card (bench_V2 (bench_config 5 false 10))))))
  = sd_files (bench_V2 (bench_config 5 false 10)).
Proof.
  pose proof (X18_V2_sample_lost_without_card (bench_config 5 false 10)
                bench_no_card (bench_V2 (bench_config 5 false 10))
                eq_refl eq_refl eq_refl) as [_ [Hfiles _]].
  exact Hfiles.
Defined.

Lemma X19_short_interval_witness :
  delays (events_of (solardatalog.loop (bench_config 1 false 10))
            (bench_datalog (bench_config 1 false 10))) = 0
  ∧ delays (events_of (solardatalog.loop (bench_config 5 false 10))
              (bench_datalog (bench_config 5 false 10))) = 4000.
Proof.
  assert (H1 : 1 ≤ 1) by lia.
  assert (H5 : 0 < 5 ≤ 32767) by lia.
  pose proof (X19_datalog_short_and_odd_intervals (bench_config 1 false 10)
                (bench_datalog (bench_config 1 false 10)) eq_refl eq_refl)
    as [Hshort _].
  pose proof (X19_datalog_short_and_odd_intervals (bench_config 5 false 10)
                (bench_datalog (bench_config 5 false 10)) eq_refl eq_refl)
    as [_ Hodd].
  split; [exact (proj1 (Hshort H1))|exact (Hodd H5 eq_refl)].
Defined.
